(** * The progression evaluator of [backend/routes/scores.js]

    A shallow embedding of the four helper functions of the scores routes
    ([getUserAchievements], [getGamePerformance], [getMotivationalMessage],
    [getProgressToNextLevel]) together with the fragment of JavaScript
    semantics they rely on: coercions of possibly-absent row columns,
    property lookup through the prototype chain, array indexing, and IEEE
    double arithmetic for the progress percentage. *)

From Stdlib Require Import ZArith QArith Qround Lia.
From Stdlib Require Import Floats.
From stdpp Require Import base option list strings gmap.

#[local] Open Scope Z_scope.

(** ** The JavaScript fragment *)

Module JS.

(** A numeric column of a statistics row as the handler sees it: the
    property can be missing ([undefined]), hold SQL NULL ([null], which is
    how the [pg] driver delivers an absent value), or hold an
    integer-valued number. *)
Inductive field : Type :=
| Undefined
| Null
| Num (n : Z).

(** [ToNumber]; [None] stands for NaN. *)
Definition ToNumber (v : field) : option Z :=
  match v with
  | Undefined => None
  | Null => Some 0
  | Num n => Some n
  end.

(** [ToBoolean]: [undefined], [null] and [0] are falsy. *)
Definition ToBoolean (v : field) : bool :=
  match v with
  | Undefined | Null => false
  | Num n => negb (n =? 0)
  end.

(** [v <= k] for a numeric literal [k]: both sides go through [ToNumber],
    and a comparison with NaN is false. *)
Definition less_or_equal (v : field) (k : Z) : bool :=
  match ToNumber v with
  | Some n => n <=? k
  | None => false
  end.

(** [v === k] for a numeric literal [k]: no coercion takes place. *)
Definition strict_eq (v : field) (k : Z) : bool :=
  match v with
  | Num n => n =? k
  | _ => false
  end.

(** The result of a call: a normal return or a thrown exception. *)
Inductive outcome (A : Type) : Type :=
| Return (a : A)
| Throw (error : string).
Arguments Return {A} a.
Arguments Throw {A} error.

(** The property names every object literal inherits from
    [Object.prototype]. Each of them is bound to a function (or, for
    [__proto__], to the prototype object itself), hence truthy, and none of
    those values carries further data properties of interest here. *)
Definition Object_prototype : list string :=
  [ "constructor"; "hasOwnProperty"; "isPrototypeOf"; "propertyIsEnumerable";
    "toLocaleString"; "toString"; "valueOf"; "__proto__";
    "__defineGetter__"; "__defineSetter__";
    "__lookupGetter__"; "__lookupSetter__" ]%string.

(** What [obj[key]] evaluates to for an object literal [obj] whose own
    properties all have type [A]. *)
Inductive property (A : Type) : Type :=
| Own (a : A)
| Inherited (key : string)
| Absent.
Arguments Own {A} a.
Arguments Inherited {A} key.
Arguments Absent {A}.

Definition get_property {A : Type} (obj : gmap string A) (key : string)
    : property A :=
  match obj !! key with
  | Some a => Own a
  | None =>
      if bool_decide (key ∈ Object_prototype) then Inherited key else Absent
  end.

(** [a || b] on looked-up properties: objects and functions are truthy,
    [undefined] is not. *)
Definition logical_or {A : Type} (a b : property A) : property A :=
  match a with
  | Absent => b
  | _ => a
  end.

(** [arr.push(x)]. *)
Definition push {A : Type} (arr : list A) (x : A) : list A := arr ++ [x].

(** [arr[i]] for an integer [i]; [None] stands for [undefined]. *)
Definition at_index {A : Type} (arr : list A) (i : Z) : option A :=
  if i <? 0 then None else arr !! Z.to_nat i.

(** [arr.indexOf(x)]: the first position holding [x], or [-1]. *)
Fixpoint indexOf (arr : list Z) (x : Z) : Z :=
  match arr with
  | [] => -1
  | y :: rest =>
      if y =? x then 0
      else let i := indexOf rest x in if i <? 0 then -1 else i + 1
  end.

(** [Math.floor] of an exact rational. *)
Definition Math_floor (q : Q) : Z := Qfloor q.

End JS.

Import JS.

(** ** Data model *)

(** The statistics row handed to the helpers. [total_games] and
    [best_score] are integer-valued numbers; [best_time] and [rank] may be
    absent; [last_played] is a timestamp (milliseconds since the epoch) or
    absent, and is only copied. *)
Record UserStats : Type := {
  total_games : Z;
  best_score : Z;
  best_time : field;
  rank : field;
  last_played : option Z
}.

Record Achievement : Type := {
  id : string;
  title : string;
  description : string;
  icon : string;
  rarity : string;
  unlockedAt : option Z
}.

(** ** [getUserAchievements] *)

(** One statement [if (c) { achievements.push(a); }] of the function body,
    as a transformer of the local array. *)
Definition push_when (c : bool) (a : Achievement)
    (achievements : list Achievement) : list Achievement :=
  if c then push achievements a else achievements.

(** The function is [async] but awaits nothing, and no statement of its
    [try] block can throw on a row object, so the [catch] branch is dead; the
    embedding is the array the returned promise resolves to. [username] is
    not used. *)
Definition getUserAchievements (username : string) (userStats : UserStats)
    : list Achievement :=
  let achievements := [] in
  (* Games Played Achievements *)
  let achievements :=
    push_when (total_games userStats >=? 10)
      {| id := "ten_games";
         title := "Getting Warmed Up! 🔥";
         description := "Played 10 games";
         icon := "🎯";
         rarity := "common";
         unlockedAt := last_played userStats |} achievements in
  let achievements :=
    push_when (total_games userStats >=? 50)
      {| id := "fifty_games";
         title := "Memory Enthusiast! 🤓";
         description := "Played 50 games";
         icon := "🏅";
         rarity := "uncommon";
         unlockedAt := last_played userStats |} achievements in
  let achievements :=
    push_when (total_games userStats >=? 100)
      {| id := "hundred_games";
         title := "Memory Addict! 🧠";
         description := "Played 100 games";
         icon := "🏆";
         rarity := "rare";
         unlockedAt := last_played userStats |} achievements in
  (* Score Achievements *)
  let achievements :=
    push_when (best_score userStats >=? 100)
      {| id := "score_100";
         title := "Century Club! 💯";
         description := "Scored 100 points in a single game";
         icon := "💯";
         rarity := "common";
         unlockedAt := last_played userStats |} achievements in
  let achievements :=
    push_when (best_score userStats >=? 200)
      {| id := "score_200";
         title := "Double Century! 🎊";
         description := "Scored 200 points in a single game";
         icon := "🌟";
         rarity := "uncommon";
         unlockedAt := last_played userStats |} achievements in
  let achievements :=
    push_when (best_score userStats >=? 300)
      {| id := "score_300";
         title := "Memory Master! 👑";
         description := "Scored 300 points in a single game";
         icon := "👑";
         rarity := "legendary";
         unlockedAt := last_played userStats |} achievements in
  (* Speed Achievements *)
  let achievements :=
    push_when (ToBoolean (best_time userStats) && less_or_equal (best_time userStats) 60000)
      {| id := "speed_demon";
         title := "Speed Demon! ⚡";
         description := "Completed a game in under 1 minute";
         icon := "⚡";
         rarity := "rare";
         unlockedAt := last_played userStats |} achievements in
  let achievements :=
    push_when (ToBoolean (best_time userStats) && less_or_equal (best_time userStats) 30000)
      {| id := "lightning_fast";
         title := "Lightning Fast! 🌩️";
         description := "Completed a game in under 30 seconds";
         icon := "🌩️";
         rarity := "legendary";
         unlockedAt := last_played userStats |} achievements in
  (* Ranking Achievements *)
  let achievements :=
    push_when (less_or_equal (rank userStats) 10)
      {| id := "top_ten";
         title := "Top 10 Player! 🏆";
         description := "Reached the top 10 on the leaderboard";
         icon := "🏆";
         rarity := "epic";
         unlockedAt := last_played userStats |} achievements in
  let achievements :=
    push_when (less_or_equal (rank userStats) 3)
      {| id := "podium";
         title := "Podium Finisher! 🥇";
         description := "Reached the top 3 on the leaderboard";
         icon := "🥇";
         rarity := "legendary";
         unlockedAt := last_played userStats |} achievements in
  let achievements :=
    push_when (strict_eq (rank userStats) 1)
      {| id := "champion";
         title := "Champion! 👑";
         description := "Reached #1 on the leaderboard";
         icon := "👑";
         rarity := "legendary";
         unlockedAt := last_played userStats |} achievements in
  achievements.

(** The ids of a result, in order. *)
Definition ids (achievements : list Achievement) : list string :=
  map id achievements.

(** ** [getGamePerformance] *)

Record Threshold : Type := {
  excellent : Z;
  good : Z;
  average : Z
}.

Record Performance : Type := {
  rating : string;
  emoji : string;
  color : string
}.

Definition thresholds : gmap string Threshold :=
  {[ "easy" := {| excellent := 180; good := 140; average := 100 |};
     "medium" := {| excellent := 220; good := 180; average := 140 |};
     "hard" := {| excellent := 280; good := 220; average := 180 |};
     "expert" := {| excellent := 350; good := 280; average := 220 |} ]}.

(** [score >= threshold.member]. Reading a member of an own row gives its
    number; reading it from an inherited function or prototype object gives
    [undefined], against which every comparison is false; reading it from
    [undefined] throws. *)
Definition score_reaches (score : Z) (threshold : property Threshold)
    (member : Threshold -> Z) : outcome bool :=
  match threshold with
  | Own row => Return (score >=? member row)
  | Inherited _ => Return false
  | Absent => Throw "TypeError"
  end.

Definition getGamePerformance (score : Z) (difficulty : string)
    : outcome Performance :=
  let threshold :=
    logical_or (get_property thresholds difficulty)
               (get_property thresholds "easy") in
  match score_reaches score threshold excellent with
  | Throw e => Throw e
  | Return true =>
      Return {| rating := "Excellent"; emoji := "🌟"; color := "#FFD700" |}
  | Return false =>
      match score_reaches score threshold good with
      | Throw e => Throw e
      | Return true =>
          Return {| rating := "Good"; emoji := "👍"; color := "#90EE90" |}
      | Return false =>
          match score_reaches score threshold average with
          | Throw e => Throw e
          | Return true =>
              Return {| rating := "Average"; emoji := "😊"; color := "#87CEEB" |}
          | Return false =>
              Return {| rating := "Keep Trying"; emoji := "💪"; color := "#FFA07A" |}
          end
      end
  end.

(** ** [getMotivationalMessage] *)

Definition messages : gmap string (list string) :=
  {[ "rookie" :=
       [ "🌱 Every expert was once a beginner! Keep playing!";
         "🎮 You're just getting started - the fun is ahead!";
         "🚀 Great start! Your memory skills are developing!" ];
     "beginner" :=
       [ "🎯 You're making progress! Keep up the good work!";
         "💪 Your memory is getting stronger with each game!";
         "⭐ Nice improvement! You're on the right track!" ];
     "intermediate" :=
       [ "🔥 You're getting good at this! Keep the momentum!";
         "🎪 Impressive skills! You're becoming a memory pro!";
         "🌟 Excellent progress! You're in the intermediate league!" ];
     "advanced" :=
       [ "🏆 Outstanding performance! You're almost a master!";
         "💎 Your memory skills are truly impressive!";
         "🚀 You're reaching expert levels! Keep pushing!" ];
     "expert" :=
       [ "🧠 Memory Master level achieved! Incredible!";
         "👑 You're among the elite players! Amazing work!";
         "🌟 Legendary performance! You're inspiring others!" ] ]}.

(** The [let level = 'rookie'; if ... else if ...] cascade. *)
Definition level_of (userStats : UserStats) : string :=
  let level := "rookie" in
  if best_score userStats >=? 300 then "expert"
  else if best_score userStats >=? 200 then "advanced"
  else if best_score userStats >=? 150 then "intermediate"
  else if best_score userStats >=? 100 then "beginner"
  else level.

(** [random] is the value [Math.random()] produced in this call, a number
    in [[0, 1)]; the product with the pool length and its floor are taken
    exactly. The result is the selected array element, [None] standing for
    [undefined]. *)
Definition getMotivationalMessage (userStats : UserStats) (random : Q)
    : outcome (option string) :=
  let level := level_of userStats in
  match get_property messages level with
  | Own levelMessages =>
      Return (at_index levelMessages
                (Math_floor (random * inject_Z (Z.of_nat (length levelMessages)))))
  | Inherited _ => Return None
  | Absent => Throw "TypeError"
  end.

(** ** [getProgressToNextLevel] *)

Module Number.

(** The double nearest to an integer (exact up to [2^53]). Scores are
    integer-valued doubles, so the double difference of two of them is
    [of_Z] of their exact difference. *)
Definition of_Z (z : Z) : float :=
  SF2Prim (binary_normalize prec emax z 0 false).

Definition is_nan (x : float) : bool := negb (x =? x)%float.

Definition is_negative_zero (x : float) : bool :=
  match classify x with
  | NZero => true
  | _ => false
  end.

(** [Math.min(x, y)]: NaN is contagious and [-0] is below [+0]. *)
Definition Math_min (x y : float) : float :=
  if is_nan x || is_nan y then nan
  else if (x <? y)%float then x
  else if (y <? x)%float then y
  else if is_negative_zero x then x else y.

(** [Math.max(x, y)]. *)
Definition Math_max (x y : float) : float :=
  if is_nan x || is_nan y then nan
  else if (x <? y)%float then y
  else if (y <? x)%float then x
  else if is_negative_zero x then y else x.

End Number.

(** [!v] for a number or [undefined]. *)
Definition falsy (v : option Z) : bool :=
  match v with
  | None => true
  | Some n => n =? 0
  end.

(** [v || d] for a number or [undefined]. *)
Definition or_else (v : option Z) (d : Z) : Z :=
  if falsy v then d else default d v.

(** The object the function returns: [{ isMaxLevel: true, message }] or
    [{ isMaxLevel: false, currentLevel, nextLevel, progress, pointsNeeded }]. *)
Inductive ProgressToNextLevel : Type :=
| MaxLevel (message : string)
| NextLevel (currentLevel nextLevel : Z) (progress : float) (pointsNeeded : Z).

Definition levels : list Z := [100; 150; 200; 250; 300].

Definition getProgressToNextLevel (bestScore : Z) : ProgressToNextLevel :=
  let nextLevel := find (fun level => level >? bestScore) levels in
  if falsy nextLevel then
    MaxLevel "You've reached the highest level! 👑"
  else
    let nextLevel := default 0 nextLevel in
    let previousLevel :=
      or_else (at_index levels (indexOf levels nextLevel - 1)) 0 in
    let progress :=
      (Number.of_Z (bestScore - previousLevel)
         / Number.of_Z (nextLevel - previousLevel) * 100)%float in
    NextLevel previousLevel nextLevel
      (Number.Math_max 0 (Number.Math_min 100 progress))
      (nextLevel - bestScore).

(** ** Vocabulary of the specification *)

(** An optional field is present when it holds a number; [P] is what the
    specification then requires of that number. *)
Definition present (v : field) (P : Z -> Prop) : Prop :=
  match v with
  | Num n => P n
  | Undefined | Null => False
  end.

(** The rows of the achievement table, in table order. *)
Definition table_order : list string :=
  [ "ten_games"; "fifty_games"; "hundred_games";
    "score_100"; "score_200"; "score_300";
    "speed_demon"; "lightning_fast";
    "top_ten"; "podium"; "champion" ].

(** The four ratings, and the fixed emoji and colour each is paired with. *)
Inductive Rating : Type := KeepTrying | Average | Good | Excellent.

Definition render (r : Rating) : Performance :=
  match r with
  | Excellent => {| rating := "Excellent"; emoji := "🌟"; color := "#FFD700" |}
  | Good => {| rating := "Good"; emoji := "👍"; color := "#90EE90" |}
  | Average => {| rating := "Average"; emoji := "😊"; color := "#87CEEB" |}
  | KeepTrying => {| rating := "Keep Trying"; emoji := "💪"; color := "#FFA07A" |}
  end.

(** The threshold triple of the specification's table, with the fallback to
    the easy triple the specification asks for. *)
Definition triple_of (difficulty : string) : Threshold :=
  if decide (difficulty = "medium") then
    {| excellent := 220; good := 180; average := 140 |}
  else if decide (difficulty = "hard") then
    {| excellent := 280; good := 220; average := 180 |}
  else if decide (difficulty = "expert") then
    {| excellent := 350; good := 280; average := 220 |}
  else {| excellent := 180; good := 140; average := 100 |}.

(** The descending comparison of the specification. *)
Definition spec_ratePerformance (score : Z) (difficulty : string) : Rating :=
  let t := triple_of difficulty in
  if excellent t <=? score then Excellent
  else if good t <=? score then Good
  else if average t <=? score then Average
  else KeepTrying.

(** The order easy < medium < hard < expert on recognized difficulties. *)
Definition difficulty_rank (difficulty : string) : option nat :=
  if decide (difficulty = "easy") then Some 0%nat
  else if decide (difficulty = "medium") then Some 1%nat
  else if decide (difficulty = "hard") then Some 2%nat
  else if decide (difficulty = "expert") then Some 3%nat
  else None.

(** The order Keep Trying < Average < Good < Excellent. *)
Definition rating_rank (r : Rating) : nat :=
  match r with
  | KeepTrying => 0
  | Average => 1
  | Good => 2
  | Excellent => 3
  end.

(** The five skill tiers and their score ranges. *)
Inductive Tier : Type := rookie | beginner | intermediate | advanced | expert.

Definition in_tier (t : Tier) (score : Z) : Prop :=
  match t with
  | rookie => score < 100
  | beginner => 100 <= score <= 149
  | intermediate => 150 <= score <= 199
  | advanced => 200 <= score <= 299
  | expert => 300 <= score
  end.


(** [clamp x lo hi] on doubles. *)
Definition clamp (x lo hi : float) : float :=
  if (x <? lo)%float then lo
  else if (hi <? x)%float then hi
  else x.

(** [previous] is the level preceding [next], or [0] when [next] is the
    first level. *)
Definition precedes (previous next : Z) : Prop :=
  (levels !! 0%nat = Some next /\ previous = 0) \/
  (exists i : nat, levels !! i = Some previous /\ levels !! S i = Some next).

(** [next] is the smallest level strictly greater than [score]. *)
Definition smallest_above (score next : Z) : Prop :=
  next ∈ levels /\ score < next /\
  forall level, level ∈ levels -> score < level -> next <= level.

(** The unclamped percentage, in double arithmetic. *)
Definition percentage (bestScore previous next : Z) : float :=
  (Number.of_Z (bestScore - previous) / Number.of_Z (next - previous) * 100)%float.

(** [lo, lo+1, ..., lo+n-1]. *)
Definition range (lo : Z) (n : nat) : list Z :=
  map (fun i => lo + Z.of_nat i) (seq 0 n).

(** Each level with the one before it, [0] standing before the first. *)
Definition steps : list (Z * Z) :=
  [(0, 100); (100, 150); (150, 200); (200, 250); (250, 300)].

(** ** Sample rows *)

(** A new player: nothing played, no time, and the rank column is NULL. *)
Definition unranked_row : UserStats :=
  {| total_games := 0; best_score := 0; best_time := Null; rank := Null;
     last_played := None |}.

(** A row whose best time is 0 milliseconds. *)
Definition zero_time_row : UserStats :=
  {| total_games := 0; best_score := 0; best_time := Num 0; rank := Undefined;
     last_played := None |}.

(** A seasoned player at the top of the leaderboard. *)
Definition champion_row : UserStats :=
  {| total_games := 120; best_score := 350; best_time := Num 25000;
     rank := Num 1; last_played := Some 1700000000000 |}.

(** A beginner. *)
Definition beginner_row : UserStats :=
  {| total_games := 5; best_score := 125; best_time := Undefined;
     rank := Num 42; last_played := Some 1700000000000 |}.

(** ** Further helpers of the scores routes *)

Module PerformanceLevel.

(** The object [getPerformanceLevel] returns. *)
Record t : Type := {
  level : string;
  emoji : string;
  color : string
}.

End PerformanceLevel.

Definition getPerformanceLevel (bestScore : Z) : PerformanceLevel.t :=
  if bestScore >=? 300 then
    {| PerformanceLevel.level := "Memory Master";
       PerformanceLevel.emoji := "🧠"; PerformanceLevel.color := "#FFD700" |}
  else if bestScore >=? 250 then
    {| PerformanceLevel.level := "Expert";
       PerformanceLevel.emoji := "🏆"; PerformanceLevel.color := "#C0C0C0" |}
  else if bestScore >=? 200 then
    {| PerformanceLevel.level := "Advanced";
       PerformanceLevel.emoji := "⭐"; PerformanceLevel.color := "#CD7F32" |}
  else if bestScore >=? 150 then
    {| PerformanceLevel.level := "Intermediate";
       PerformanceLevel.emoji := "🎯"; PerformanceLevel.color := "#4169E1" |}
  else if bestScore >=? 100 then
    {| PerformanceLevel.level := "Beginner";
       PerformanceLevel.emoji := "🌱"; PerformanceLevel.color := "#32CD32" |}
  else
    {| PerformanceLevel.level := "Rookie";
       PerformanceLevel.emoji := "🎮"; PerformanceLevel.color := "#808080" |}.


(** [isUnlockedToday]. [toDateString] renders a time as its local calendar
    date, as [new Date(t).toDateString()] does, and [now] is the reading of
    the clock taken by [new Date()]. A numeric timestamp of 0 is falsy. *)
Definition isUnlockedToday (toDateString : Z -> string) (now : Z)
    (achievement : Achievement) : bool :=
  if falsy (unlockedAt achievement) then false
  else
    let today := toDateString now in
    let unlockedDate := toDateString (default 0 (unlockedAt achievement)) in
    String.eqb today unlockedDate.

(** A row none of whose statistics can be improved upon, stamped [stamp]. *)
Definition perfect_row (stamp : option Z) : UserStats :=
  {| total_games := 100; best_score := 300; best_time := Num 1;
     rank := Num 1; last_played := stamp |}.

(** [s'] is at least as good as [s] in every statistic: no fewer games, no
    lower best score, a best time that is still there and no slower, and a
    rank that is unchanged or is a position at least as high. *)
Definition improves (s s' : UserStats) : Prop :=
  total_games s <= total_games s' /\
  best_score s <= best_score s' /\
  (forall t : Z, best_time s = Num t -> t <> 0 ->
     exists t' : Z, best_time s' = Num t' /\ t' <> 0 /\ t' <= t) /\
  (rank s' = rank s \/
   exists r r' : Z, rank s = Num r /\ rank s' = Num r' /\ 1 <= r' <= r).

(** ** The global error handler of the API server *)

Module ErrorHandler.

(** The [err] object handed to the handler: [status] may be missing, and
    [message] and [stack] are strings on an [Error] ([None] stands for
    [undefined]). *)
Record error : Type := {
  status : field;
  message : option string;
  stack : option string
}.

(** What [res.status(code).json(body)] is given: the status code and the
    properties of the body object, in order. *)
Record response : Type := {
  code : Z;
  body : list (string * option string)
}.

End ErrorHandler.

(** [v || d] for a possibly-absent number. *)
Definition number_or (v : field) (d : Z) : Z :=
  if ToBoolean v then default d (ToNumber v) else d.

(** The last [app.use((err, req, res, next) => ...)] of the server.
    [NODE_ENV] is [process.env.NODE_ENV] ([None] when unset) and [timestamp]
    is [new Date().toISOString()]. Spreading [false] adds no property. *)
Definition globalErrorHandler (NODE_ENV : option string) (timestamp : string)
    (err : ErrorHandler.error) : ErrorHandler.response :=
  let isDevelopment := negb (bool_decide (NODE_ENV = Some "production")) in
  {| ErrorHandler.code := number_or (ErrorHandler.status err) 500;
     ErrorHandler.body :=
       [ ("error", Some "Internal Server Error");
         ("message",
          if isDevelopment then ErrorHandler.message err
          else Some "Something went wrong! Our devs are probably laughing at this bug right now! 😅") ]
       ++ (if isDevelopment then [("stack", ErrorHandler.stack err)] else [])
       ++ [ ("timestamp", Some timestamp) ] |}.

(** ** [Database.transaction] *)

Module Pg.

(** What a call does to the outside: a statement sent on the client, the
    client handed back to the pool, a line on the error console. *)
Inductive event : Type :=
| Queried (text : string)
| Released
| Logged (message : string).

(** The client obtained from the pool. Its behaviour is not part of this
    repository: [query_result h text] tells whether the statement [text],
    sent after the events [h], resolves or rejects, and [release_result h]
    whether [release()] returns or throws. *)
Record client : Type := {
  query_result : list event -> string -> outcome unit;
  release_result : list event -> outcome unit
}.

(** A computation reads the events so far and yields the events it adds
    and its outcome. *)
Definition M (A : Type) : Type := list event -> list event * outcome A.

Definition ret {A : Type} (a : A) : M A := fun _ => ([], Return a).

Definition throw {A : Type} (error : string) : M A := fun _ => ([], Throw error).

(** [await] of a promise that is already settled. *)
Definition await {A : Type} (settled : outcome A) : M A := fun _ => ([], settled).

Definition bind {A B : Type} (m : M A) (k : A -> M B) : M B :=
  fun h =>
    let (e1, r) := m h in
    match r with
    | Return a => let (e2, r') := k a (h ++ e1) in (e1 ++ e2, r')
    | Throw error => (e1, Throw error)
    end.

(** [try { body } catch (error) { handler }]. *)
Definition try_catch {A : Type} (body : M A) (handler : string -> M A) : M A :=
  fun h =>
    let (e1, r) := body h in
    match r with
    | Return a => (e1, Return a)
    | Throw error => let (e2, r') := handler error (h ++ e1) in (e1 ++ e2, r')
    end.

(** [try { body } finally { cleanup }]: the cleanup always runs, and an
    exception it throws replaces the outcome of the body. *)
Definition try_finally {A : Type} (body : M A) (cleanup : M unit) : M A :=
  fun h =>
    let (e1, r) := body h in
    let (e2, c) := cleanup (h ++ e1) in
    (e1 ++ e2,
     match c with
     | Return _ => r
     | Throw error => Throw error
     end).

(** [await client.query(text)]. *)
Definition query (c : client) (text : string) : M unit :=
  fun h => ([Queried text], query_result c h text).

(** [client.release()]. *)
Definition release (c : client) : M unit :=
  fun h => ([Released], release_result c h).

(** [console.error(message, error)]. *)
Definition console_error (message : string) : M unit :=
  fun _ => ([Logged message], Return tt).

End Pg.

(** [pool_connect] is what [await pool.connect()] settles to; [callback] is
    the caller's transaction logic, which receives the client. *)
Definition transaction {R : Type} (pool_connect : outcome Pg.client)
    (callback : Pg.client -> Pg.M R) : Pg.M R :=
  Pg.bind (Pg.await pool_connect) (fun client =>
  Pg.try_finally
    (Pg.try_catch
       (Pg.bind (Pg.query client "BEGIN") (fun _ =>
        Pg.bind (callback client) (fun result =>
        Pg.bind (Pg.query client "COMMIT") (fun _ =>
        Pg.ret result))))
       (fun error =>
        Pg.bind (Pg.query client "ROLLBACK") (fun _ =>
        Pg.bind (Pg.console_error "❌ Transaction error:") (fun _ =>
        Pg.throw error))))
    (Pg.release client)).

(** A client on which every statement and the release succeed. *)
Definition healthy_client : Pg.client :=
  {| Pg.query_result := fun _ _ => Return tt;
     Pg.release_result := fun _ => Return tt |}.

(** A callback that sends one statement and returns 7. *)
Definition insert_callback (c : Pg.client) : Pg.M Z :=
  Pg.bind (Pg.query c "INSERT INTO game_matches VALUES ($1)") (fun _ => Pg.ret 7).

(** A callback that sends one statement and then throws. *)
Definition failing_callback (c : Pg.client) : Pg.M Z :=
  Pg.bind (Pg.query c "INSERT INTO game_matches VALUES ($1)") (fun _ =>
  Pg.throw "callback failed").

(** ** The exported [HumorGameDatabase] instance *)

Module Obj.

(** The value of a property: [undefined], or the function a class declares
    under a name (under [constructor], the class itself). *)
Inductive value : Type :=
| VUndefined
| Method (class name : string).

(** An object: its own properties in creation order, and the address of
    its prototype. *)
Record object : Type := {
  properties : list (string * value);
  prototype : option nat
}.

(** The heap: objects by address. *)
Definition heap : Type := list object.

Fixpoint own (ps : list (string * value)) (key : string) : option value :=
  match ps with
  | [] => None
  | (k, v) :: rest => if String.eqb key k then Some v else own rest key
  end.

(** [obj[key]]: the own property, or else the prototype's, and so on up
    the chain. The fuel is the number of objects, which bounds every chain
    without a cycle. *)
Fixpoint lookup_chain (fuel : nat) (h : heap) (address : nat) (key : string)
    : value :=
  match fuel with
  | O => VUndefined
  | S fuel =>
      match h !! address with
      | None => VUndefined
      | Some o =>
          match own (properties o) key with
          | Some v => v
          | None =>
              match prototype o with
              | Some parent => lookup_chain fuel h parent key
              | None => VUndefined
              end
          end
      end
  end.

Definition get (h : heap) (address : nat) (key : string) : value :=
  lookup_chain (length h) h address key.

Fixpoint assign (ps : list (string * value)) (key : string) (v : value)
    : list (string * value) :=
  match ps with
  | [] => [(key, v)]
  | (k, w) :: rest =>
      if String.eqb key k then (k, v) :: rest else (k, w) :: assign rest key v
  end.

(** [obj[key] = v] where no object of the chain has a setter or a read-only
    property under [key]: the property becomes an own one. *)
Definition set (h : heap) (address : nat) (key : string) (v : value) : heap :=
  alter (fun o => {| properties := assign (properties o) key v;
                     prototype := prototype o |}) address h.

Definition alloc (h : heap) (o : object) : heap * nat := (h ++ [o], length h).

(** [Object.create(proto)]. *)
Definition Object_create (h : heap) (proto : nat) : heap * nat :=
  alloc h {| properties := []; prototype := Some proto |}.

(** [Object.setPrototypeOf(obj, proto)]. *)
Definition Object_setPrototypeOf (h : heap) (address proto : nat) : heap :=
  alter (fun o => {| properties := properties o; prototype := Some proto |})
        address h.

(** [Object.getOwnPropertyNames(obj)]. *)
Definition Object_getOwnPropertyNames (h : heap) (address : nat) : list string :=
  match h !! address with
  | Some o => (properties o).*1
  | None => []
  end.

(** The prototype object a class declaration creates: [constructor] and
    the methods, in the order of the declaration. *)
Definition class_prototype (class : string) (methods : list string)
    (parent : nat) : object :=
  {| properties := map (fun m => (m, Method class m)) ("constructor" :: methods);
     prototype := Some parent |}.

End Obj.

Definition Object_prototype_address : nat := 0.
Definition Database_prototype : nat := 1.
Definition UserQueries_prototype : nat := 2.
Definition GameQueries_prototype : nat := 3.
Definition HumorGameDatabase_prototype : nat := 4.

(** The heap after the four class declarations of the database module.
    [Object.prototype] holds its function members; its [__proto__] accessor
    is left out. *)
Definition classes : Obj.heap :=
  [ {| Obj.properties :=
         map (fun m => (m, Obj.Method "Object" m))
             (filter (fun m => m <> "__proto__") Object_prototype);
       Obj.prototype := None |};
    Obj.class_prototype "Database"
      ["query"; "transaction"; "testConnection"; "getStats"; "close";
       "getPoolStatus"] Object_prototype_address;
    Obj.class_prototype "UserQueries"
      ["createOrGetUser"; "getUserStats"; "updateLastPlayed"] Database_prototype;
    Obj.class_prototype "GameQueries"
      ["createGame"; "completeGame"; "recordMatch"; "getLeaderboard"]
      Database_prototype;
    Obj.class_prototype "HumorGameDatabase" [] UserQueries_prototype ].

(** [new HumorGameDatabase()]. [super()] creates the instance with the
    prototype of the class being instantiated; none of the inherited
    constructors adds a property. *)
Definition HumorGameDatabase_new (h : Obj.heap) : Obj.heap * nat :=
  let (h, this) :=
    Obj.alloc h {| Obj.properties := [];
                   Obj.prototype := Some HumorGameDatabase_prototype |} in
  let (h, created) := Obj.Object_create h GameQueries_prototype in
  let h := Obj.Object_setPrototypeOf h this created in
  let h :=
    foldl (fun h name =>
             if negb (String.eqb name "constructor") then
               Obj.set h this name (Obj.get h GameQueries_prototype name)
             else h)
          h (Obj.Object_getOwnPropertyNames h GameQueries_prototype) in
  (h, this).

(** [const database = new HumorGameDatabase()], the singleton the module
    exports. *)
Definition database : Obj.heap * nat := HumorGameDatabase_new classes.

(** ** Facts about the JavaScript fragment *)

Lemma less_or_equal_Num (n k : Z) : less_or_equal (Num n) k = true <-> n <= k.
Proof. unfold less_or_equal; simpl. apply Z.leb_le. Qed.

Lemma less_or_equal_Undefined (k : Z) : less_or_equal Undefined k = false.
Proof. reflexivity. Qed.

(** [null <= k] holds for every non-negative literal: [null] coerces to 0. *)
Lemma less_or_equal_Null (k : Z) : 0 <= k -> less_or_equal Null k = true.
Proof. intros Hk. unfold less_or_equal; simpl. by apply Z.leb_le. Qed.

Lemma strict_eq_true (v : field) (k : Z) : strict_eq v k = true <-> v = Num k.
Proof.
  destruct v as [| |n]; simpl; try (split; [discriminate|discriminate]).
  rewrite Z.eqb_eq. split; [intros ->; reflexivity | intros [= ->]; reflexivity].
Qed.

Lemma guarded_less_or_equal (v : field) (k : Z) :
  ToBoolean v && less_or_equal v k = true <-> present v (fun n => n <> 0 /\ n <= k).
Proof.
  destruct v as [| |n]; simpl; try (split; [discriminate | contradiction]).
  unfold less_or_equal; simpl. rewrite andb_true_iff, negb_true_iff, Z.eqb_neq, Z.leb_le.
  reflexivity.
Qed.

(** ** Facts about [getUserAchievements] *)

Lemma ids_push_when (c : bool) (a : Achievement) (acc : list Achievement) :
  ids (push_when c a acc) = ids acc ++ (if c then [id a] else []).
Proof.
  unfold ids, push_when, push. destruct c; simpl.
  - by rewrite map_app.
  - by rewrite app_nil_r.
Qed.

(** The ids of a result are the table rows whose condition holds, in table
    order. *)
Lemma ids_getUserAchievements (username : string) (s : UserStats) :
  ids (getUserAchievements username s) =
    (if total_games s >=? 10 then ["ten_games"] else []) ++
    (if total_games s >=? 50 then ["fifty_games"] else []) ++
    (if total_games s >=? 100 then ["hundred_games"] else []) ++
    (if best_score s >=? 100 then ["score_100"] else []) ++
    (if best_score s >=? 200 then ["score_200"] else []) ++
    (if best_score s >=? 300 then ["score_300"] else []) ++
    (if ToBoolean (best_time s) && less_or_equal (best_time s) 60000
     then ["speed_demon"] else []) ++
    (if ToBoolean (best_time s) && less_or_equal (best_time s) 30000
     then ["lightning_fast"] else []) ++
    (if less_or_equal (rank s) 10 then ["top_ten"] else []) ++
    (if less_or_equal (rank s) 3 then ["podium"] else []) ++
    (if strict_eq (rank s) 1 then ["champion"] else []).
Proof.
  unfold getUserAchievements. cbv zeta.
  rewrite !ids_push_when. cbn [id ids map].
  rewrite <- !app_assoc. reflexivity.
Qed.

Lemma elem_of_row (x y : string) (c : bool) (rest : list string) :
  x ∈ (if c then [y] else []) ++ rest <-> (c = true /\ x = y) \/ x ∈ rest.
Proof.
  rewrite elem_of_app. destruct c.
  - rewrite list_elem_of_singleton. intuition congruence.
  - rewrite elem_of_nil. intuition congruence.
Qed.

Lemma elem_of_last_row (x y : string) (c : bool) :
  x ∈ (if c then [y] else []) <-> c = true /\ x = y.
Proof.
  destruct c.
  - rewrite list_elem_of_singleton. intuition congruence.
  - rewrite elem_of_nil. intuition congruence.
Qed.

(** Membership of a table id in a result reduces to the row's own condition. *)
Ltac row_membership :=
  rewrite ids_getUserAchievements, !elem_of_row, elem_of_last_row;
  split; [ intros H; repeat destruct H as [H|H]; destruct H as [H ?];
           first [ exact H | discriminate ]
         | intros H; tauto ].

Lemma in_ids_ten_games u s :
  "ten_games" ∈ ids (getUserAchievements u s) <-> (total_games s >=? 10) = true.
Proof. row_membership. Qed.

Lemma in_ids_fifty_games u s :
  "fifty_games" ∈ ids (getUserAchievements u s) <-> (total_games s >=? 50) = true.
Proof. row_membership. Qed.

Lemma in_ids_hundred_games u s :
  "hundred_games" ∈ ids (getUserAchievements u s) <-> (total_games s >=? 100) = true.
Proof. row_membership. Qed.

Lemma in_ids_score_100 u s :
  "score_100" ∈ ids (getUserAchievements u s) <-> (best_score s >=? 100) = true.
Proof. row_membership. Qed.

Lemma in_ids_score_200 u s :
  "score_200" ∈ ids (getUserAchievements u s) <-> (best_score s >=? 200) = true.
Proof. row_membership. Qed.

Lemma in_ids_score_300 u s :
  "score_300" ∈ ids (getUserAchievements u s) <-> (best_score s >=? 300) = true.
Proof. row_membership. Qed.

Lemma in_ids_speed_demon u s :
  "speed_demon" ∈ ids (getUserAchievements u s) <->
  ToBoolean (best_time s) && less_or_equal (best_time s) 60000 = true.
Proof. row_membership. Qed.

Lemma in_ids_lightning_fast u s :
  "lightning_fast" ∈ ids (getUserAchievements u s) <->
  ToBoolean (best_time s) && less_or_equal (best_time s) 30000 = true.
Proof. row_membership. Qed.

Lemma in_ids_top_ten u s :
  "top_ten" ∈ ids (getUserAchievements u s) <-> less_or_equal (rank s) 10 = true.
Proof. row_membership. Qed.

Lemma in_ids_podium u s :
  "podium" ∈ ids (getUserAchievements u s) <-> less_or_equal (rank s) 3 = true.
Proof. row_membership. Qed.

Lemma in_ids_champion u s :
  "champion" ∈ ids (getUserAchievements u s) <-> strict_eq (rank s) 1 = true.
Proof. row_membership. Qed.

(** ** The rank rows *)

(** Whenever the rank is a number or the property is missing altogether, the
    three rank rows fire exactly as the table says. *)
Lemma rank_rows_unless_null (u : string) (s : UserStats) :
  rank s <> Null ->
  ("top_ten" ∈ ids (getUserAchievements u s) <->
     present (rank s) (fun r => r <= 10)) /\
  ("podium" ∈ ids (getUserAchievements u s) <->
     present (rank s) (fun r => r <= 3)) /\
  ("champion" ∈ ids (getUserAchievements u s) <->
     present (rank s) (fun r => r = 1)).
Proof.
  intros Hrank.
  rewrite in_ids_top_ten, in_ids_podium, in_ids_champion.
  destruct (rank s) as [| |r]; [| contradiction |].
  - rewrite !less_or_equal_Undefined. simpl. intuition discriminate.
  - rewrite !less_or_equal_Num, strict_eq_true. simpl.
    intuition congruence.
Qed.

(** The champion row never fires without a rank: [===] does not coerce. *)
Lemma champion_needs_rank (u : string) (s : UserStats) :
  "champion" ∈ ids (getUserAchievements u s) <-> rank s = Num 1.
Proof. rewrite in_ids_champion. apply strict_eq_true. Qed.

(** A NULL rank passes both unguarded [<=] tests, whatever the other
    columns hold. *)
Lemma null_rank_rows (u : string) (s : UserStats) :
  rank s = Null ->
  "top_ten" ∈ ids (getUserAchievements u s) /\
  "podium" ∈ ids (getUserAchievements u s) /\
  ("champion" ∉ ids (getUserAchievements u s)).
Proof.
  intros Hrank.
  rewrite in_ids_top_ten, in_ids_podium, in_ids_champion, Hrank.
  repeat split; try reflexivity. simpl. discriminate.
Qed.

(** C1, at the row of an unranked player: the rank is absent (the column is
    NULL), yet the result consists of the top_ten and podium achievements.
    The speed rows guard their comparison with a presence test; the rank
    rows compare directly, and [null <= 10] is true. *)
Theorem null_rank_unlocks_top_ten_and_podium :
  (~ present (rank unranked_row) (fun r => r <= 10)) /\
  ids (getUserAchievements "player" unranked_row) = ["top_ten"; "podium"].
Proof. split; [intros [] | reflexivity]. Qed.

(** ** The speed rows *)

(** C2 as stated fails at a best time of 0: it is present and at most 30000,
    and neither speed achievement is in the result. *)
Lemma zero_best_time_yields_no_speed_badge :
  present (best_time zero_time_row) (fun t => t <= 30000) /\
  present (best_time zero_time_row) (fun t => t <= 60000) /\
  ("speed_demon" ∉ ids (getUserAchievements "player" zero_time_row)) /\
  ("lightning_fast" ∉ ids (getUserAchievements "player" zero_time_row)).
Proof.
  repeat split; try (simpl; lia).
  - rewrite in_ids_speed_demon. simpl. discriminate.
  - rewrite in_ids_lightning_fast. simpl. discriminate.
Qed.

(** C2, amended: speed_demon is in the result iff best_time is present,
    non-zero and at most 60000, and lightning_fast iff it is present,
    non-zero and at most 30000; the truthiness guard of both rows treats a
    best time of 0 like an absent one. *)
Theorem speed_rows (u : string) (s : UserStats) :
  ("speed_demon" ∈ ids (getUserAchievements u s) <->
     present (best_time s) (fun t => t <> 0 /\ t <= 60000)) /\
  ("lightning_fast" ∈ ids (getUserAchievements u s) <->
     present (best_time s) (fun t => t <> 0 /\ t <= 30000)).
Proof.
  rewrite in_ids_speed_demon, in_ids_lightning_fast.
  split; apply guarded_less_or_equal.
Qed.

(** Consequences spelled out: a time in [1, 30000] yields both achievements,
    an absent or zero time yields neither. *)
Lemma fast_time_yields_both (u : string) (s : UserStats) (t : Z) :
  best_time s = Num t -> 1 <= t <= 30000 ->
  "speed_demon" ∈ ids (getUserAchievements u s) /\
  "lightning_fast" ∈ ids (getUserAchievements u s).
Proof.
  intros Ht Hrange.
  rewrite in_ids_speed_demon, in_ids_lightning_fast, !guarded_less_or_equal, Ht.
  simpl. lia.
Qed.

Lemma no_time_yields_neither (u : string) (s : UserStats) :
  best_time s = Undefined \/ best_time s = Null \/ best_time s = Num 0 ->
  ("speed_demon" ∉ ids (getUserAchievements u s)) /\
  ("lightning_fast" ∉ ids (getUserAchievements u s)).
Proof.
  intros Ht.
  rewrite in_ids_speed_demon, in_ids_lightning_fast, !guarded_less_or_equal.
  destruct Ht as [-> | [-> | ->]]; simpl; intuition lia.
Qed.

(** ** Cumulative tiers *)

(** C3: fewer than 10 games never yields ten_games; 100 games or more yield
    all three games achievements; a best score of 300 or more yields all
    three score achievements. *)
Theorem tiers_are_cumulative (u : string) (s : UserStats) :
  (total_games s < 10 -> "ten_games" ∉ ids (getUserAchievements u s)) /\
  (total_games s >= 100 ->
     "ten_games" ∈ ids (getUserAchievements u s) /\
     "fifty_games" ∈ ids (getUserAchievements u s) /\
     "hundred_games" ∈ ids (getUserAchievements u s)) /\
  (best_score s >= 300 ->
     "score_100" ∈ ids (getUserAchievements u s) /\
     "score_200" ∈ ids (getUserAchievements u s) /\
     "score_300" ∈ ids (getUserAchievements u s)).
Proof.
  rewrite in_ids_ten_games, in_ids_fifty_games, in_ids_hundred_games,
    in_ids_score_100, in_ids_score_200, in_ids_score_300.
  rewrite !Z.geb_le. repeat split; lia.
Qed.

Lemma tiers_are_cumulative_witness :
  ("ten_games" ∉ ids (getUserAchievements "player" beginner_row)) /\
  ("ten_games" ∈ ids (getUserAchievements "player" champion_row) /\
   "fifty_games" ∈ ids (getUserAchievements "player" champion_row) /\
   "hundred_games" ∈ ids (getUserAchievements "player" champion_row)) /\
  ("score_100" ∈ ids (getUserAchievements "player" champion_row) /\
   "score_200" ∈ ids (getUserAchievements "player" champion_row) /\
   "score_300" ∈ ids (getUserAchievements "player" champion_row)).
Proof.
  split; [| split].
  - apply (tiers_are_cumulative "player" beginner_row). simpl. lia.
  - apply (tiers_are_cumulative "player" champion_row). simpl. lia.
  - apply (tiers_are_cumulative "player" champion_row). simpl. lia.
Defined.

(** ** Determinism and order *)



Lemma sublist_row (y : string) (c : bool) (l1 l2 : list string) :
  l1 `sublist_of` l2 -> (if c then [y] else []) ++ l1 `sublist_of` y :: l2.
Proof.
  intros H. destruct c; simpl.
  - by apply sublist_skip.
  - by apply sublist_cons.
Qed.

Lemma table_order_NoDup : NoDup table_order.
Proof. apply (bool_decide_unpack (NoDup table_order)). vm_compute. exact I. Qed.

(** C8: the ids of a result form a subsequence of the table order, hence no
    id occurs twice. *)
Theorem ids_follow_table_order (u : string) (s : UserStats) :
  ids (getUserAchievements u s) `sublist_of` table_order /\
  NoDup (ids (getUserAchievements u s)).
Proof.
  assert (Hsub : ids (getUserAchievements u s) `sublist_of` table_order).
  { rewrite ids_getUserAchievements. unfold table_order.
    do 10 apply sublist_row.
    rewrite <- (app_nil_r (if strict_eq (rank s) 1 then _ else _)).
    apply sublist_row. constructor. }
  split; [exact Hsub |].
  eapply sublist_NoDup; [apply table_order_NoDup | exact Hsub].
Qed.

(** ** Performance rating *)

(** [thresholds[difficulty]], key by key. *)
Lemma get_thresholds (d : string) :
  get_property thresholds d =
    if decide (d = "easy") then
      Own {| excellent := 180; good := 140; average := 100 |}
    else if decide (d = "medium") then
      Own {| excellent := 220; good := 180; average := 140 |}
    else if decide (d = "hard") then
      Own {| excellent := 280; good := 220; average := 180 |}
    else if decide (d = "expert") then
      Own {| excellent := 350; good := 280; average := 220 |}
    else if bool_decide (d ∈ Object_prototype) then Inherited d
    else Absent.
Proof.
  unfold get_property, thresholds.
  rewrite !lookup_insert, lookup_singleton.
  repeat case_decide; subst; try congruence; reflexivity.
Qed.

Lemma render_inj (r1 r2 : Rating) : render r1 = render r2 -> r1 = r2.
Proof. destruct r1, r2; simpl; intros H; first [reflexivity | discriminate H]. Qed.

(** The descending cascade on an own row. *)
Lemma cascade_on_own_row (score : Z) (row : Threshold) :
  match score_reaches score (Own row) excellent with
  | Throw e => Throw e
  | Return true => Return (render Excellent)
  | Return false =>
      match score_reaches score (Own row) good with
      | Throw e => Throw e
      | Return true => Return (render Good)
      | Return false =>
          match score_reaches score (Own row) average with
          | Throw e => Throw e
          | Return true => Return (render Average)
          | Return false => Return (render KeepTrying)
          end
      end
  end =
  Return (render (if excellent row <=? score then Excellent
                  else if good row <=? score then Good
                  else if average row <=? score then Average
                  else KeepTrying)).
Proof.
  simpl. rewrite !Z.geb_leb.
  destruct (excellent row <=? score); [reflexivity |].
  destruct (good row <=? score); [reflexivity |].
  destruct (average row <=? score); reflexivity.
Qed.

(** On every difficulty string that does not name a member of
    [Object.prototype], the function rates as the table and the fallback to
    the easy triple prescribe. *)
Lemma getGamePerformance_off_prototype (score : Z) (d : string) :
  d ∉ Object_prototype ->
  getGamePerformance score d = Return (render (spec_ratePerformance score d)).
Proof.
  intros Hd. unfold getGamePerformance, spec_ratePerformance, triple_of. cbv zeta.
  rewrite !get_thresholds.
  rewrite (bool_decide_eq_false_2 _ Hd).
  repeat case_decide; subst; try congruence; apply cascade_on_own_row.
Qed.

(** On a name inherited from [Object.prototype] the lookup is truthy, the
    fallback is skipped, every member read is [undefined], and the rating is
    Keep Trying whatever the score. *)
Lemma getGamePerformance_on_prototype (score : Z) (d : string) :
  d ∈ Object_prototype ->
  getGamePerformance score d = Return (render KeepTrying).
Proof.
  intros Hd. unfold getGamePerformance. cbv zeta.
  rewrite (get_thresholds d).
  rewrite (bool_decide_eq_true_2 _ Hd).
  repeat case_decide; subst;
    try (exfalso; revert Hd; apply (bool_decide_eq_false_1 _); reflexivity).
  reflexivity.
Qed.

(** The three sample ratings of the specification. *)
Lemma getGamePerformance_samples :
  getGamePerformance 180 "easy" = Return (render Excellent) /\
  getGamePerformance 179 "easy" = Return (render Good) /\
  getGamePerformance 50 "unknown-difficulty" = Return (render KeepTrying).
Proof. repeat split; vm_compute; reflexivity. Qed.

(** C4, at the difficulty string "constructor" and a score of 200: the
    string is not a row of the table, the easy triple would rate the score
    Excellent, and the function returns Keep Trying, because
    [thresholds["constructor"]] finds [Object.prototype.constructor] and the
    [||] fallback never runs. *)
Theorem inherited_key_defeats_fallback :
  thresholds !! "constructor" = None /\
  spec_ratePerformance 200 "constructor" = Excellent /\
  getGamePerformance 200 "constructor" = Return (render KeepTrying).
Proof. repeat split; vm_compute; reflexivity. Qed.

Lemma difficulty_rank_Some (d : string) (n : nat) :
  difficulty_rank d = Some n ->
  (d = "easy" /\ n = 0%nat) \/ (d = "medium" /\ n = 1%nat) \/
  (d = "hard" /\ n = 2%nat) \/ (d = "expert" /\ n = 3%nat).
Proof.
  unfold difficulty_rank. repeat case_decide; intros [= <-]; auto.
Qed.

Lemma recognized_off_prototype (d : string) (n : nat) :
  difficulty_rank d = Some n -> d ∉ Object_prototype.
Proof.
  intros H. destruct (difficulty_rank_Some d n H) as [[-> _]|[[-> _]|[[-> _]|[-> _]]]];
    apply (bool_decide_eq_false_1 _); reflexivity.
Qed.

(** C10: at a fixed score, a harder recognized difficulty never gets a
    strictly better rating than an easier one. *)
Theorem harder_difficulty_never_rates_better
    (score : Z) (d1 d2 : string) (n1 n2 : nat) :
  difficulty_rank d1 = Some n1 ->
  difficulty_rank d2 = Some n2 ->
  (n2 < n1)%nat ->
  exists r1 r2 : Rating,
    getGamePerformance score d1 = Return (render r1) /\
    getGamePerformance score d2 = Return (render r2) /\
    (rating_rank r1 <= rating_rank r2)%nat.
Proof.
  intros H1 H2 Hlt.
  exists (spec_ratePerformance score d1), (spec_ratePerformance score d2).
  split; [| split].
  - apply getGamePerformance_off_prototype. eapply recognized_off_prototype, H1.
  - apply getGamePerformance_off_prototype. eapply recognized_off_prototype, H2.
  - destruct (difficulty_rank_Some d1 n1 H1) as [[-> ->]|[[-> ->]|[[-> ->]|[-> ->]]]];
    destruct (difficulty_rank_Some d2 n2 H2) as [[-> ->]|[[-> ->]|[[-> ->]|[-> ->]]]];
    try lia; unfold spec_ratePerformance, triple_of; simpl;
    repeat match goal with
           | |- context [?a <=? ?b] => destruct (Z.leb_spec a b)
           end; simpl; lia.
Qed.

Lemma harder_difficulty_never_rates_better_witness :
  exists r1 r2 : Rating,
    getGamePerformance 200 "expert" = Return (render r1) /\
    getGamePerformance 200 "easy" = Return (render r2) /\
    (rating_rank r1 <= rating_rank r2)%nat.
Proof.
  apply (harder_difficulty_never_rates_better 200 "expert" "easy" 3 0).
  - reflexivity.
  - reflexivity.
  - lia.
Defined.

(** ** Motivational messages *)


Lemma tier_unique (score : Z) (t1 t2 : Tier) :
  in_tier t1 score -> in_tier t2 score -> t1 = t2.
Proof. destruct t1, t2; simpl; intros; first [reflexivity | lia]. Qed.







(** The draw matters: the function is not a function of the statistics alone. *)
Lemma message_depends_on_draw :
  getMotivationalMessage beginner_row 0 <>
  getMotivationalMessage beginner_row (2 # 3).
Proof. vm_compute. discriminate. Qed.

(** In double arithmetic the product is rounded; at the largest double below
    1 it still stays below the pool length. *)
Remark largest_draw_stays_below_length :
  (0x1.fffffffffffffp-1 <? 1)%float = true /\
  (0x1.fffffffffffffp-1 * 3 <? 3)%float = true.
Proof. split; vm_compute; reflexivity. Qed.

(** ** Progress to the next level *)

Lemma elem_of_range (lo : Z) (n : nat) (z : Z) :
  lo <= z < lo + Z.of_nat n -> z ∈ range lo n.
Proof.
  intros Hz. unfold range. apply list_elem_of_fmap.
  exists (Z.to_nat (z - lo)). split; [lia |].
  apply elem_of_seq. lia.
Qed.

Lemma pointwise_of_map_eq {A : Type} (f g : Z -> A) (l : list Z) :
  map f l = map g l -> forall z, z ∈ l -> f z = g z.
Proof.
  induction l as [|x l IH]; simpl; intros Heq z Hz.
  - by apply elem_of_nil in Hz.
  - injection Heq as Hx Hl. apply elem_of_cons in Hz as [-> | Hz]; auto.
Qed.

(** Between two consecutive levels, [Math.max(0, Math.min(100, p))] and the
    clamp of the percentage to [0, 100] are the same double. Checked on every
    score of the interval. *)
Lemma clamped_percentage (previous next bestScore : Z) :
  (previous, next) ∈ steps ->
  previous <= bestScore < next ->
  Number.Math_max 0 (Number.Math_min 100 (percentage bestScore previous next)) =
  clamp (percentage bestScore previous next) 0 100.
Proof.
  intros Hstep Hb.
  apply (pointwise_of_map_eq
           (fun b => Number.Math_max 0
                       (Number.Math_min 100 (percentage b previous next)))
           (fun b => clamp (percentage b previous next) 0 100)
           (range previous (Z.to_nat (next - previous))));
    [| apply elem_of_range; lia].
  clear Hb. unfold steps in Hstep.
  repeat (apply elem_of_cons in Hstep as [[= -> ->] | Hstep];
          [vm_compute; reflexivity |]).
  by apply elem_of_nil in Hstep.
Qed.

(** The percentage is a number between 0 and 100 on every such score. *)
Lemma percentage_in_bounds (previous next bestScore : Z) :
  (previous, next) ∈ steps ->
  previous <= bestScore < next ->
  (0 <=? clamp (percentage bestScore previous next) 0 100)%float = true /\
  (clamp (percentage bestScore previous next) 0 100 <=? 100)%float = true.
Proof.
  intros Hstep Hb.
  apply andb_true_iff.
  apply (pointwise_of_map_eq
           (fun b => (0 <=? clamp (percentage b previous next) 0 100)%float &&
                     (clamp (percentage b previous next) 0 100 <=? 100)%float)
           (fun _ => true)
           (range previous (Z.to_nat (next - previous))));
    [| apply elem_of_range; lia].
  clear Hb. unfold steps in Hstep.
  repeat (apply elem_of_cons in Hstep as [[= -> ->] | Hstep];
          [vm_compute; reflexivity |]).
  by apply elem_of_nil in Hstep.
Qed.

(** Within a step, the upper end is the smallest level above the score and
    the lower end is what precedes it. *)
Lemma step_is_next (previous next bestScore : Z) :
  (previous, next) ∈ steps ->
  previous <= bestScore < next ->
  smallest_above bestScore next /\ precedes previous next.
Proof.
  intros Hstep Hb. unfold steps in Hstep.
  assert (Hmin : forall k : Z, k ∈ levels -> k <= previous \/ next <= k).
  { intros k Hk. unfold levels in Hk.
    repeat (apply elem_of_cons in Hstep as [[= -> ->] | Hstep];
            [repeat (apply elem_of_cons in Hk as [-> | Hk]; [lia |]);
             by apply elem_of_nil in Hk |]).
    by apply elem_of_nil in Hstep. }
  split; [split; [| split] |].
  - repeat (apply elem_of_cons in Hstep as [[= -> ->] | Hstep];
            [apply (bool_decide_unpack (_ ∈ levels)); vm_compute; exact I |]).
    by apply elem_of_nil in Hstep.
  - lia.
  - intros level Hl Hlt. destruct (Hmin level Hl); lia.
  - apply elem_of_cons in Hstep as [[= -> ->] | Hstep];
      [left; split; reflexivity |].
    right.
    apply elem_of_cons in Hstep as [[= -> ->] | Hstep];
      [exists 0%nat; split; reflexivity |].
    apply elem_of_cons in Hstep as [[= -> ->] | Hstep];
      [exists 1%nat; split; reflexivity |].
    apply elem_of_cons in Hstep as [[= -> ->] | Hstep];
      [exists 2%nat; split; reflexivity |].
    apply elem_of_cons in Hstep as [[= -> ->] | Hstep];
      [exists 3%nat; split; reflexivity |].
    by apply elem_of_nil in Hstep.
Qed.

(** The search [levels.find(level => level > bestScore)]. *)
Lemma find_next_level (previous next bestScore : Z) :
  (previous, next) ∈ steps ->
  previous <= bestScore < next ->
  find (fun level => level >? bestScore) levels = Some next.
Proof.
  intros Hstep Hb. unfold steps in Hstep. unfold levels. cbn [find].
  repeat (apply elem_of_cons in Hstep as [[= -> ->] | Hstep];
          [repeat match goal with
                  | |- context [?a >? bestScore] =>
                      destruct (Z.gtb_spec a bestScore); [try lia | try lia]
                  end; reflexivity |]).
  by apply elem_of_nil in Hstep.
Qed.

Lemma find_no_level (bestScore : Z) :
  300 <= bestScore ->
  find (fun level => level >? bestScore) levels = None.
Proof.
  intros Hb. unfold levels. cbn [find].
  repeat match goal with
         | |- context [?a >? bestScore] =>
             destruct (Z.gtb_spec a bestScore); [lia |]
         end.
  reflexivity.
Qed.

(** What the function returns within a step. *)
Lemma getProgressToNextLevel_in_step (previous next bestScore : Z) :
  (previous, next) ∈ steps ->
  previous <= bestScore < next ->
  getProgressToNextLevel bestScore =
    NextLevel previous next
      (clamp (percentage bestScore previous next) 0 100) (next - bestScore).
Proof.
  intros Hstep Hb.
  rewrite <- (clamped_percentage previous next bestScore Hstep Hb).
  unfold getProgressToNextLevel. cbv zeta.
  rewrite (find_next_level previous next bestScore Hstep Hb).
  unfold steps in Hstep.
  repeat (apply elem_of_cons in Hstep as [[= -> ->] | Hstep];
          [reflexivity |]).
  by apply elem_of_nil in Hstep.
Qed.

Lemma step_of_score (bestScore : Z) :
  0 <= bestScore < 300 ->
  exists previous next : Z,
    (previous, next) ∈ steps /\ previous <= bestScore < next.
Proof.
  intros Hb.
  destruct (Z_lt_le_dec bestScore 100);
    [exists 0, 100; split; [| lia] |
  destruct (Z_lt_le_dec bestScore 150);
    [exists 100, 150; split; [| lia] |
  destruct (Z_lt_le_dec bestScore 200);
    [exists 150, 200; split; [| lia] |
  destruct (Z_lt_le_dec bestScore 250);
    [exists 200, 250; split; [| lia] |
     exists 250, 300; split; [| lia]]]]];
  apply (bool_decide_unpack (_ ∈ steps)); vm_compute; exact I.
Qed.

(** C5: for a non-negative best score, the function looks for the smallest
    level strictly above it. From 300 on there is none and the max-level
    marker is returned; below 300 the result consists of the preceding level
    (or 0), that next level, the percentage of the way between them clamped
    to [0, 100], and the points still needed. The three sample values are as
    the specification lists them. *)
Theorem getProgressToNextLevel_spec :
  (forall bestScore : Z, 0 <= bestScore ->
     (300 <= bestScore ->
        (forall level : Z, level ∈ levels -> ~ bestScore < level) /\
        getProgressToNextLevel bestScore =
          MaxLevel "You've reached the highest level! 👑") /\
     (bestScore < 300 ->
        exists previous next : Z,
          smallest_above bestScore next /\
          precedes previous next /\
          getProgressToNextLevel bestScore =
            NextLevel previous next
              (clamp (percentage bestScore previous next) 0 100)
              (next - bestScore))) /\
  getProgressToNextLevel 300 = MaxLevel "You've reached the highest level! 👑" /\
  getProgressToNextLevel 125 = NextLevel 100 150 50 25 /\
  getProgressToNextLevel 0 = NextLevel 0 100 0 100.
Proof.
  split; [| repeat split; vm_compute; reflexivity].
  intros bestScore Hnonneg. split.
  - intros Hmax. split.
    + intros level Hl. unfold levels in Hl.
      repeat (apply elem_of_cons in Hl as [-> | Hl]; [lia |]).
      by apply elem_of_nil in Hl.
    + unfold getProgressToNextLevel. cbv zeta.
      rewrite (find_no_level bestScore Hmax). reflexivity.
  - intros Hbelow.
    destruct (step_of_score bestScore) as (previous & next & Hstep & Hb); [lia |].
    destruct (step_is_next previous next bestScore Hstep Hb) as [Hnext Hprev].
    exists previous, next. split; [exact Hnext |]. split; [exact Hprev |].
    by apply getProgressToNextLevel_in_step.
Qed.

Lemma getProgressToNextLevel_spec_witness :
  exists previous next : Z,
    smallest_above 107 next /\
    precedes previous next /\
    getProgressToNextLevel 107 =
      NextLevel previous next
        (clamp (percentage 107 previous next) 0 100) (next - 107).
Proof.
  apply (proj1 getProgressToNextLevel_spec 107); lia.
Defined.

(** Double arithmetic shows in the percentage: 7 points out of 50 are not
    exactly 14 percent. *)
Remark percentage_is_a_double :
  getProgressToNextLevel 107 = NextLevel 100 150 0x1.c000000000001p+3 43.
Proof. vm_compute. reflexivity. Qed.

(** ** Totality *)




(** ** Further properties of [getUserAchievements] *)

Lemma sublist_rows (y : string) (c c' : bool) (l l' : list string) :
  (c = true -> c' = true) ->
  l `sublist_of` l' ->
  (if c then [y] else []) ++ l `sublist_of` (if c' then [y] else []) ++ l'.
Proof.
  intros Hc Hl. destruct c; simpl.
  - rewrite (Hc eq_refl). simpl. by apply sublist_skip.
  - destruct c'; simpl; [by apply sublist_cons | exact Hl].
Qed.

Lemma sublist_last_row (y : string) (c c' : bool) :
  (c = true -> c' = true) ->
  (if c then [y] else []) `sublist_of` (if c' then [y] else []).
Proof.
  intros Hc.
  rewrite <- (app_nil_r (if c then _ else _)), <- (app_nil_r (if c' then _ else _)).
  apply sublist_rows; [exact Hc | constructor].
Qed.

Lemma geb_mono (a b k : Z) : a <= b -> (a >=? k) = true -> (b >=? k) = true.
Proof. rewrite !Z.geb_le. lia. Qed.

Lemma geb_below (a k : Z) : a < k -> (a >=? k) = false.
Proof. intros H. rewrite Z.geb_leb. apply Z.leb_gt. exact H. Qed.

Lemma guarded_mono (v v' : field) (k : Z) :
  (forall t : Z, v = Num t -> t <> 0 ->
     exists t' : Z, v' = Num t' /\ t' <> 0 /\ t' <= t) ->
  ToBoolean v && less_or_equal v k = true ->
  ToBoolean v' && less_or_equal v' k = true.
Proof.
  intros Hv. rewrite !guarded_less_or_equal.
  destruct v as [| |t]; simpl; try contradiction.
  intros [Ht Hk]. destruct (Hv t eq_refl Ht) as (t' & -> & Ht' & Hle).
  simpl. lia.
Qed.

Lemma rank_mono (v v' : field) :
  (v' = v \/ exists r r' : Z, v = Num r /\ v' = Num r' /\ 1 <= r' <= r) ->
  (forall k : Z, less_or_equal v k = true -> less_or_equal v' k = true) /\
  (strict_eq v 1 = true -> strict_eq v' 1 = true).
Proof.
  intros [-> | (r & r' & -> & -> & Hr)]; [split; auto |].
  split.
  - intros k. rewrite !less_or_equal_Num. lia.
  - rewrite !strict_eq_true. intros [= ->]. f_equal. lia.
Qed.

(** X1: a player whose statistics improve keeps every achievement: the ids
    unlocked before are a subsequence of the ids unlocked after. *)
Theorem improving_keeps_badges (u u' : string) (s s' : UserStats) :
  improves s s' ->
  ids (getUserAchievements u s) `sublist_of` ids (getUserAchievements u' s').
Proof.
  intros (Hgames & Hscore & Htime & Hrank).
  destruct (rank_mono (rank s) (rank s') Hrank) as [Hle Heq].
  rewrite !ids_getUserAchievements.
  repeat (apply sublist_rows;
          [first [ by apply geb_mono | by apply guarded_mono | apply Hle ] |]).
  apply sublist_last_row. exact Heq.
Qed.

Lemma improving_keeps_badges_witness :
  ids (getUserAchievements "player" beginner_row) `sublist_of`
  ids (getUserAchievements "player" champion_row).
Proof.
  apply (improving_keeps_badges "player" "player" beginner_row champion_row).
  unfold improves. simpl. repeat split; try lia.
  - intros t Ht. discriminate Ht.
  - right. exists 42, 1. repeat split; lia.
Defined.

(** X2: within each family an achievement never comes without the lower
    ones: hundred_games brings fifty_games, which brings ten_games; likewise
    for the scores, for lightning_fast and speed_demon, and for champion,
    podium and top_ten. *)
Theorem badge_families_are_downward_closed (u : string) (s : UserStats) :
  ("hundred_games" ∈ ids (getUserAchievements u s) ->
     "fifty_games" ∈ ids (getUserAchievements u s)) /\
  ("fifty_games" ∈ ids (getUserAchievements u s) ->
     "ten_games" ∈ ids (getUserAchievements u s)) /\
  ("score_300" ∈ ids (getUserAchievements u s) ->
     "score_200" ∈ ids (getUserAchievements u s)) /\
  ("score_200" ∈ ids (getUserAchievements u s) ->
     "score_100" ∈ ids (getUserAchievements u s)) /\
  ("lightning_fast" ∈ ids (getUserAchievements u s) ->
     "speed_demon" ∈ ids (getUserAchievements u s)) /\
  ("champion" ∈ ids (getUserAchievements u s) ->
     "podium" ∈ ids (getUserAchievements u s)) /\
  ("podium" ∈ ids (getUserAchievements u s) ->
     "top_ten" ∈ ids (getUserAchievements u s)).
Proof.
  rewrite in_ids_ten_games, in_ids_fifty_games, in_ids_hundred_games,
    in_ids_score_100, in_ids_score_200, in_ids_score_300,
    in_ids_speed_demon, in_ids_lightning_fast,
    in_ids_top_ten, in_ids_podium, in_ids_champion.
  rewrite !guarded_less_or_equal, !Z.geb_le, strict_eq_true.
  repeat split; try lia.
  - destruct (best_time s); simpl; intuition lia.
  - intros ->. reflexivity.
  - destruct (rank s) as [| |r]; [discriminate | reflexivity |].
    rewrite !less_or_equal_Num. lia.
Qed.

Lemma badge_families_are_downward_closed_witness :
  "fifty_games" ∈ ids (getUserAchievements "player" champion_row) /\
  "ten_games" ∈ ids (getUserAchievements "player" champion_row) /\
  "score_200" ∈ ids (getUserAchievements "player" champion_row) /\
  "score_100" ∈ ids (getUserAchievements "player" champion_row) /\
  "speed_demon" ∈ ids (getUserAchievements "player" champion_row) /\
  "podium" ∈ ids (getUserAchievements "player" champion_row) /\
  "top_ten" ∈ ids (getUserAchievements "player" champion_row).
Proof.
  pose proof (badge_families_are_downward_closed "player" champion_row)
    as (H1 & H2 & H3 & H4 & H5 & H6 & H7).
  assert (Hin : forall x : string,
            bool_decide (x ∈ ids (getUserAchievements "player" champion_row)) = true ->
            x ∈ ids (getUserAchievements "player" champion_row))
    by (intros x; apply bool_decide_eq_true_1).
  repeat split.
  - apply H1, Hin. reflexivity.
  - apply H2, H1, Hin. reflexivity.
  - apply H3, Hin. reflexivity.
  - apply H4, H3, Hin. reflexivity.
  - apply H5, Hin. reflexivity.
  - apply H6, Hin. reflexivity.
  - apply H7, H6, Hin. reflexivity.
Defined.

(** X3: the result is empty exactly when the player has fewer than 10 games,
    a best score below 100, no usable best time at or under a minute, and a
    rank that is missing or beyond 10. *)
Theorem no_achievement_iff (u : string) (s : UserStats) :
  getUserAchievements u s = [] <->
  total_games s < 10 /\
  best_score s < 100 /\
  ~ present (best_time s) (fun t => t <> 0 /\ t <= 60000) /\
  (rank s = Undefined \/ exists r : Z, rank s = Num r /\ 10 < r).
Proof.
  assert (Hids : getUserAchievements u s = [] <-> ids (getUserAchievements u s) = []).
  { unfold ids. split; [intros ->; reflexivity | apply map_eq_nil]. }
  rewrite Hids. split.
  - intros Hnil.
    assert (Hout : forall x : string, x ∉ ids (getUserAchievements u s))
      by (intros x; rewrite Hnil; apply not_elem_of_nil).
    pose proof (Hout "ten_games") as H1. rewrite in_ids_ten_games, Z.geb_le in H1.
    pose proof (Hout "score_100") as H2. rewrite in_ids_score_100, Z.geb_le in H2.
    pose proof (Hout "speed_demon") as H3.
    rewrite in_ids_speed_demon, guarded_less_or_equal in H3.
    pose proof (Hout "top_ten") as H4. rewrite in_ids_top_ten in H4.
    repeat split; [lia | lia | exact H3 |].
    destruct (rank s) as [| |r]; [by left | by destruct H4 |].
    right. exists r. split; [reflexivity |].
    rewrite less_or_equal_Num in H4. lia.
  - intros (Hgames & Hscore & Htime & Hrank).
    rewrite ids_getUserAchievements.
    rewrite <- guarded_less_or_equal in Htime.
    apply not_true_is_false in Htime. rewrite Htime.
    assert (Hlight : ToBoolean (best_time s) && less_or_equal (best_time s) 30000 = false).
    { apply not_true_is_false. intros Hl. apply not_true_iff_false in Htime.
      apply Htime. rewrite guarded_less_or_equal in *.
      destruct (best_time s); simpl in *; intuition lia. }
    rewrite Hlight.
    rewrite !(geb_below (total_games s)), !(geb_below (best_score s)) by lia.
    destruct Hrank as [-> | (r & -> & Hr)]; [reflexivity |].
    unfold less_or_equal, strict_eq; simpl.
    replace (r <=? 10) with false by (symmetry; apply Z.leb_gt; lia).
    replace (r <=? 3) with false by (symmetry; apply Z.leb_gt; lia).
    replace (r =? 1) with false by (symmetry; apply Z.eqb_neq; lia).
    reflexivity.
Qed.

Lemma sublist_push_when (c : bool) (a : Achievement)
    (acc acc' : list Achievement) :
  acc `sublist_of` acc' ->
  push_when c a acc `sublist_of` push_when true a acc'.
Proof.
  intros H. unfold push_when, push. destruct c.
  - by apply sublist_app.
  - rewrite <- (app_nil_r acc). apply sublist_app; [exact H |].
    by apply sublist_cons.
Qed.

(** Every result is a subsequence of what the perfect row with the same
    stamp unlocks. *)
Lemma result_within_perfect (u u' : string) (s : UserStats) :
  getUserAchievements u s `sublist_of`
  getUserAchievements u' (perfect_row (last_played s)).
Proof.
  unfold getUserAchievements. cbv zeta.
  repeat apply sublist_push_when. constructor.
Qed.

Lemma result_stamps (u : string) (s : UserStats) :
  Forall (fun a => unlockedAt a = last_played s) (getUserAchievements u s).
Proof.
  apply Forall_forall. intros a Ha.
  eapply elem_of_sublist in Ha; [| apply (result_within_perfect u "" s)].
  revert a Ha. apply Forall_forall.
  generalize (last_played s). intros stamp.
  repeat constructor.
Qed.

(** X4: every achievement of a result carries the row's [last_played] as its
    unlock time and one of the five rarities, and its id fixes its title,
    description, icon and rarity: two achievements with the same id, from
    whatever rows, differ in their unlock time at most. *)
Theorem achievements_are_catalog_entries (u u' : string) (s s' : UserStats) :
  Forall (fun a =>
            unlockedAt a = last_played s /\
            rarity a ∈ ["common"; "uncommon"; "rare"; "epic"; "legendary"] /\
            Forall (fun a' =>
                      id a' = id a ->
                      title a' = title a /\ description a' = description a /\
                      icon a' = icon a /\ rarity a' = rarity a)
                   (getUserAchievements u' s'))
         (getUserAchievements u s).
Proof.
  apply Forall_forall. intros a Ha.
  eapply elem_of_sublist in Ha; [| apply (result_within_perfect u "" s)].
  revert a Ha. apply Forall_forall.
  assert (Hall : forall P : Achievement -> Prop,
            Forall P (getUserAchievements "" (perfect_row (last_played s'))) ->
            Forall P (getUserAchievements u' s')).
  { intros P HP. apply Forall_forall. intros a' Ha'.
    eapply elem_of_sublist in Ha'; [| apply (result_within_perfect u' "" s')].
    revert a' Ha'. by apply Forall_forall. }
  generalize (last_played s). intros stamp.
  repeat (apply Forall_cons; split;
          [split; [reflexivity |]; split;
           [apply (bool_decide_unpack (_ ∈ _)); vm_compute; exact I |];
           apply Hall; generalize (last_played s'); intros stamp';
           repeat (apply Forall_cons; split;
                   [simpl; intros Hid;
                    first [discriminate Hid | repeat split; reflexivity] |]);
           apply Forall_nil; exact I |]).
  apply Forall_nil. exact I.
Qed.

(** ** [isUnlockedToday] on a result *)

(** X5: the achievements of one result all get the same answer from
    [isUnlockedToday], since they share the row's [last_played]: none is
    unlocked today when the row has no [last_played], and all are when the
    player last played on today's date. *)
Theorem unlocked_today_is_played_today
    (toDateString : Z -> string) (now : Z) (u : string) (s : UserStats) :
  Forall (fun a =>
            Forall (fun a' =>
                      isUnlockedToday toDateString now a' =
                      isUnlockedToday toDateString now a)
                   (getUserAchievements u s))
         (getUserAchievements u s) /\
  (last_played s = None ->
     Forall (fun a => isUnlockedToday toDateString now a = false)
            (getUserAchievements u s)) /\
  (forall t : Z,
     last_played s = Some t -> t <> 0 -> toDateString t = toDateString now ->
     Forall (fun a => isUnlockedToday toDateString now a = true)
            (getUserAchievements u s)).
Proof.
  pose proof (result_stamps u s) as Hstamps.
  rewrite Forall_forall in Hstamps.
  split; [| split].
  - apply Forall_forall. intros a Ha. apply Forall_forall. intros a' Ha'.
    unfold isUnlockedToday. by rewrite (Hstamps a Ha), (Hstamps a' Ha').
  - intros Hnone. apply Forall_forall. intros a Ha.
    unfold isUnlockedToday. by rewrite (Hstamps a Ha), Hnone.
  - intros t Hsome Ht Hday. apply Forall_forall. intros a Ha.
    unfold isUnlockedToday. rewrite (Hstamps a Ha), Hsome. simpl.
    destruct (Z.eqb_spec t 0); [contradiction |].
    rewrite Hday. apply String.eqb_refl.
Qed.

Lemma unlocked_today_is_played_today_witness :
  Forall (fun a => isUnlockedToday (fun _ => "Tue Nov 14 2023") 1700000100000 a = true)
         (getUserAchievements "player" champion_row).
Proof.
  apply (proj2 (proj2 (unlocked_today_is_played_today
                         (fun _ => "Tue Nov 14 2023") 1700000100000
                         "player" champion_row)) 1700000000000).
  - reflexivity.
  - discriminate.
  - reflexivity.
Defined.

(** ** Further properties of [getGamePerformance] *)

Lemma triple_of_descending (d : string) :
  average (triple_of d) <= good (triple_of d) <= excellent (triple_of d).
Proof. unfold triple_of. repeat case_decide; simpl; lia. Qed.

(** X6: for every difficulty string, recognized or not, a higher score never
    gets a worse rating. *)
Theorem higher_score_never_rates_worse
    (difficulty : string) (score1 score2 : Z) :
  score1 <= score2 ->
  exists r1 r2 : Rating,
    getGamePerformance score1 difficulty = Return (render r1) /\
    getGamePerformance score2 difficulty = Return (render r2) /\
    (rating_rank r1 <= rating_rank r2)%nat.
Proof.
  intros Hle.
  destruct (decide (difficulty ∈ Object_prototype)) as [Hin | Hout].
  - exists KeepTrying, KeepTrying.
    rewrite !getGamePerformance_on_prototype by exact Hin. auto.
  - exists (spec_ratePerformance score1 difficulty),
           (spec_ratePerformance score2 difficulty).
    rewrite !getGamePerformance_off_prototype by exact Hout.
    split; [reflexivity |]. split; [reflexivity |].
    pose proof (triple_of_descending difficulty) as Hdesc.
    unfold spec_ratePerformance. cbv zeta.
    repeat match goal with
           | |- context [?a <=? ?b] => destruct (Z.leb_spec a b)
           end; simpl; lia.
Qed.

Lemma higher_score_never_rates_worse_witness :
  exists r1 r2 : Rating,
    getGamePerformance 150 "hard" = Return (render r1) /\
    getGamePerformance 250 "hard" = Return (render r2) /\
    (rating_rank r1 <= rating_rank r2)%nat.
Proof.
  apply (higher_score_never_rates_worse "hard" 150 250). lia.
Defined.

(** ** Which draw selects which element *)







(** ** Levels, tiers and progress *)

(** X9: the performance level changes exactly at the levels of the progress
    computation. At the maximum the level is Memory Master; otherwise every
    score from the current level up to, but not including, the next one has
    the level of the best score, and the next level's score has another. *)
Theorem level_changes_at_progress_levels (bestScore : Z) :
  0 <= bestScore ->
  match getProgressToNextLevel bestScore with
  | MaxLevel _ =>
      PerformanceLevel.level (getPerformanceLevel bestScore) = "Memory Master"
  | NextLevel previous next _ _ =>
      (forall score : Z, previous <= score < next ->
         getPerformanceLevel score = getPerformanceLevel bestScore) /\
      getPerformanceLevel next <> getPerformanceLevel bestScore /\
      PerformanceLevel.level (getPerformanceLevel bestScore) <> "Memory Master"
  end.
Proof.
  intros Hnonneg.
  destruct (Z_lt_le_dec bestScore 300) as [Hbelow | Hmax].
  - destruct (step_of_score bestScore) as (previous & next & Hstep & Hb); [lia |].
    rewrite (getProgressToNextLevel_in_step previous next bestScore Hstep Hb).
    unfold steps in Hstep.
    repeat (apply elem_of_cons in Hstep as [[= -> ->] | Hstep];
            [split; [| split];
             [ intros score Hs; unfold getPerformanceLevel;
               repeat match goal with
                      | |- context [?a >=? ?b] =>
                          destruct (Z.geb_spec a b); try lia
                      end; reflexivity
             | unfold getPerformanceLevel;
               repeat match goal with
                      | |- context [bestScore >=? ?b] =>
                          destruct (Z.geb_spec bestScore b); try lia
                      end; simpl; discriminate
             | unfold getPerformanceLevel;
               repeat match goal with
                      | |- context [bestScore >=? ?b] =>
                          destruct (Z.geb_spec bestScore b); try lia
                      end; simpl; discriminate ] |]).
    by apply elem_of_nil in Hstep.
  - unfold getProgressToNextLevel. cbv zeta.
    rewrite (find_no_level bestScore Hmax). simpl.
    unfold getPerformanceLevel. destruct (Z.geb_spec bestScore 300); [reflexivity | lia].
Qed.

Lemma level_changes_at_progress_levels_witness :
  (forall score : Z, 100 <= score < 150 ->
     getPerformanceLevel score = getPerformanceLevel 125) /\
  getPerformanceLevel 150 <> getPerformanceLevel 125 /\
  PerformanceLevel.level (getPerformanceLevel 125) <> "Memory Master".
Proof.
  apply (level_changes_at_progress_levels 125). lia.
Defined.





(** Within a step the clamped percentage stays below 100 and is 0 at the
    lower end only. Checked on every score of the step. *)
Lemma percentage_facts (previous next bestScore : Z) :
  (previous, next) ∈ steps ->
  previous <= bestScore < next ->
  (clamp (percentage bestScore previous next) 0 100 <? 100)%float = true /\
  (clamp (percentage bestScore previous next) 0 100 =? 0)%float =
    (bestScore =? previous).
Proof.
  intros Hstep Hb. split.
  - apply (pointwise_of_map_eq
             (fun b => (clamp (percentage b previous next) 0 100 <? 100)%float)
             (fun _ => true)
             (range previous (Z.to_nat (next - previous))));
      [| apply elem_of_range; lia].
    clear Hb. unfold steps in Hstep.
    repeat (apply elem_of_cons in Hstep as [[= -> ->] | Hstep];
            [vm_compute; reflexivity |]).
    by apply elem_of_nil in Hstep.
  - apply (pointwise_of_map_eq
             (fun b => (clamp (percentage b previous next) 0 100 =? 0)%float)
             (fun b => b =? previous)
             (range previous (Z.to_nat (next - previous))));
      [| apply elem_of_range; lia].
    clear Hb. unfold steps in Hstep.
    repeat (apply elem_of_cons in Hstep as [[= -> ->] | Hstep];
            [vm_compute; reflexivity |]).
    by apply elem_of_nil in Hstep.
Qed.

(** Within a step a higher score has a strictly higher clamped percentage.
    Checked on every pair of scores of the step. *)
Lemma percentage_increasing (previous next score1 score2 : Z) :
  (previous, next) ∈ steps ->
  previous <= score1 -> score1 < score2 -> score2 < next ->
  (clamp (percentage score1 previous next) 0 100
     <? clamp (percentage score2 previous next) 0 100)%float = true.
Proof.
  intros Hstep H1 H12 H2.
  assert (Hall :
    forallb (fun b1 =>
      forallb (fun b2 =>
        implb (b1 <? b2)
          (clamp (percentage b1 previous next) 0 100
             <? clamp (percentage b2 previous next) 0 100)%float)
        (range previous (Z.to_nat (next - previous))))
      (range previous (Z.to_nat (next - previous))) = true).
  { clear H1 H12 H2. unfold steps in Hstep.
    repeat (apply elem_of_cons in Hstep as [[= -> ->] | Hstep];
            [vm_compute; reflexivity |]).
    by apply elem_of_nil in Hstep. }
  rewrite forallb_forall in Hall.
  specialize (Hall score1). rewrite forallb_forall in Hall.
  specialize (Hall ltac:(apply list_elem_of_In, elem_of_range; lia) score2
                   ltac:(apply list_elem_of_In, elem_of_range; lia)).
  destruct (Z.ltb_spec score1 score2); [exact Hall | lia].
Qed.

(** X11: below the maximum, the result brackets the best score: the current
    level is at most the best score, the next level is above it, and the
    points needed are their positive difference, at most 100. The progress is
    a number from 0 to just under 100, and it is 0 exactly when the best
    score sits on the current level. *)
Theorem progress_brackets_score
    (bestScore previous next : Z) (progress : float) (points : Z) :
  0 <= bestScore ->
  getProgressToNextLevel bestScore = NextLevel previous next progress points ->
  previous <= bestScore < next /\
  next ∈ levels /\ (previous = 0 \/ previous ∈ levels) /\
  points = next - bestScore /\ 1 <= points <= 100 /\
  (0 <=? progress)%float = true /\ (progress <? 100)%float = true /\
  ((progress =? 0)%float = true <-> bestScore = previous).
Proof.
  intros Hnonneg Hresult.
  destruct (Z_lt_le_dec bestScore 300) as [Hbelow | Hmax].
  - destruct (step_of_score bestScore) as (p & n & Hstep & Hb); [lia |].
    rewrite (getProgressToNextLevel_in_step p n bestScore Hstep Hb) in Hresult.
    injection Hresult as <- <- <- <-.
    destruct (percentage_in_bounds p n bestScore Hstep Hb) as [Hlo _].
    destruct (percentage_facts p n bestScore Hstep Hb) as [Hhi Hzero].
    destruct (step_is_next p n bestScore Hstep Hb) as [(Hin & _ & _) _].
    rewrite Hzero, Z.eqb_eq.
    split; [exact Hb |]. split; [exact Hin |].
    unfold steps in Hstep.
    repeat (apply elem_of_cons in Hstep as [[= -> ->] | Hstep];
            [repeat split; auto; try lia;
             first [ by left
                   | right; apply (bool_decide_unpack (_ ∈ levels));
                     vm_compute; exact I ] |]).
    by apply elem_of_nil in Hstep.
  - unfold getProgressToNextLevel in Hresult. cbv zeta in Hresult.
    rewrite (find_no_level bestScore Hmax) in Hresult. discriminate Hresult.
Qed.

Lemma progress_brackets_score_witness :
  100 <= 125 < 150 /\
  150 ∈ levels /\ (100 = 0 \/ 100 ∈ levels) /\
  25 = 150 - 125 /\ 1 <= 25 <= 100 /\
  (0 <=? 50)%float = true /\ (50 <? 100)%float = true /\
  ((50 =? 0)%float = true <-> 125 = 100).
Proof.
  apply (progress_brackets_score 125 100 150 50 25).
  - lia.
  - vm_compute. reflexivity.
Defined.

(** X12: between two levels the progress never moves backwards: of two best
    scores with the same current and next level, the higher has the strictly
    higher progress, rounding notwithstanding. *)
Theorem progress_increases_within_level
    (score1 score2 previous next : Z) (progress1 progress2 : float)
    (points1 points2 : Z) :
  0 <= score1 -> score1 < score2 ->
  getProgressToNextLevel score1 = NextLevel previous next progress1 points1 ->
  getProgressToNextLevel score2 = NextLevel previous next progress2 points2 ->
  (progress1 <? progress2)%float = true.
Proof.
  intros Hnonneg Hlt Hr1 Hr2.
  destruct (Z_lt_le_dec score2 300) as [Hbelow | Hmax].
  - destruct (step_of_score score1) as (p1 & n1 & Hstep1 & Hb1); [lia |].
    destruct (step_of_score score2) as (p2 & n2 & Hstep2 & Hb2); [lia |].
    rewrite (getProgressToNextLevel_in_step p1 n1 score1 Hstep1 Hb1) in Hr1.
    rewrite (getProgressToNextLevel_in_step p2 n2 score2 Hstep2 Hb2) in Hr2.
    injection Hr1 as -> -> <- _. injection Hr2 as -> -> <- _.
    apply percentage_increasing; [exact Hstep1 | lia | exact Hlt | lia].
  - unfold getProgressToNextLevel in Hr2. cbv zeta in Hr2.
    rewrite (find_no_level score2 Hmax) in Hr2. discriminate Hr2.
Qed.

Lemma progress_increases_within_level_witness :
  (0x1.c000000000001p+3 <? 50)%float = true.
Proof.
  apply (progress_increases_within_level 107 125 100 150
           0x1.c000000000001p+3 50 43 25).
  - lia.
  - lia.
  - vm_compute. reflexivity.
  - vm_compute. reflexivity.
Defined.

(** ** The global error handler *)

(** X13: the response reveals the error only outside production. When
    [NODE_ENV] is exactly "production" the body is the fixed error line, the
    fixed message and the timestamp, the same for every error; for any other
    value, or none, it carries the error's own message and a stack property.
    The status code is the error's status, or 500 when that is missing or 0. *)
Theorem error_details_only_outside_production
    (NODE_ENV : option string) (timestamp : string) (err : ErrorHandler.error) :
  (NODE_ENV = Some "production" ->
     forall err' : ErrorHandler.error,
       ErrorHandler.body (globalErrorHandler NODE_ENV timestamp err) =
       ErrorHandler.body (globalErrorHandler NODE_ENV timestamp err') /\
       "stack" ∉ (ErrorHandler.body (globalErrorHandler NODE_ENV timestamp err)).*1) /\
  (NODE_ENV <> Some "production" ->
     ("message", ErrorHandler.message err)
       ∈ ErrorHandler.body (globalErrorHandler NODE_ENV timestamp err) /\
     ("stack", ErrorHandler.stack err)
       ∈ ErrorHandler.body (globalErrorHandler NODE_ENV timestamp err)) /\
  ErrorHandler.code (globalErrorHandler NODE_ENV timestamp err) <> 0 /\
  (forall n : Z, ErrorHandler.status err = Num n -> n <> 0 ->
     ErrorHandler.code (globalErrorHandler NODE_ENV timestamp err) = n) /\
  (ErrorHandler.status err = Undefined \/ ErrorHandler.status err = Null ->
     ErrorHandler.code (globalErrorHandler NODE_ENV timestamp err) = 500).
Proof.
  unfold globalErrorHandler. cbv zeta. simpl.
  split; [| split; [| split; [| split]]].
  - intros Hprod err'. rewrite (bool_decide_eq_true_2 _ Hprod). simpl.
    split; [reflexivity |].
    rewrite !not_elem_of_cons. repeat split; try discriminate.
    apply not_elem_of_nil.
  - intros Hdev. rewrite (bool_decide_eq_false_2 _ Hdev). simpl.
    split; [apply list_elem_of_further, list_elem_of_here |].
    apply list_elem_of_further, list_elem_of_further, list_elem_of_here.
  - unfold number_or. destruct (ErrorHandler.status err) as [| |n]; simpl; try lia.
    destruct (Z.eqb_spec n 0); simpl; lia.
  - intros n -> Hn. unfold number_or. simpl.
    destruct (Z.eqb_spec n 0); [contradiction | reflexivity].
  - intros [-> | ->]; reflexivity.
Qed.

Lemma error_details_only_outside_production_witness :
  (forall err' : ErrorHandler.error,
     ErrorHandler.body
       (globalErrorHandler (Some "production") "2023-11-14T22:13:20.000Z"
          {| ErrorHandler.status := Num 404;
             ErrorHandler.message := Some "relation users does not exist";
             ErrorHandler.stack := Some "at Database.query" |}) =
     ErrorHandler.body
       (globalErrorHandler (Some "production") "2023-11-14T22:13:20.000Z" err') /\
     "stack" ∉ (ErrorHandler.body
                  (globalErrorHandler (Some "production") "2023-11-14T22:13:20.000Z"
                     {| ErrorHandler.status := Num 404;
                        ErrorHandler.message := Some "relation users does not exist";
                        ErrorHandler.stack := Some "at Database.query" |})).*1) /\
  ErrorHandler.code
    (globalErrorHandler (Some "production") "2023-11-14T22:13:20.000Z"
       {| ErrorHandler.status := Num 404;
          ErrorHandler.message := Some "relation users does not exist";
          ErrorHandler.stack := Some "at Database.query" |}) = 404.
Proof.
  pose proof (error_details_only_outside_production
                (Some "production") "2023-11-14T22:13:20.000Z"
                {| ErrorHandler.status := Num 404;
                   ErrorHandler.message := Some "relation users does not exist";
                   ErrorHandler.stack := Some "at Database.query" |})
    as (Hprod & _ & _ & Hcode & _).
  split.
  - apply Hprod. reflexivity.
  - apply (Hcode 404); [reflexivity | lia].
Defined.

(** ** Transactions *)

(** Unfolds a run of [transaction]. *)
Ltac unfold_transaction :=
  unfold transaction, Pg.bind, Pg.try_finally, Pg.try_catch, Pg.await,
    Pg.query, Pg.release, Pg.console_error, Pg.ret, Pg.throw;
  cbn [app]; rewrite ?app_nil_r.

(** Splits a run on what the client and the callback answer. *)
Ltac split_transaction :=
  repeat (first
    [ match goal with
      | |- context [Pg.query_result ?c ?h ?t] =>
          lazymatch goal with
          | H : Pg.query_result c h t = _ |- _ => fail
          | _ => destruct (Pg.query_result c h t) as [[] | ?] eqn:?
          end
      | |- context [let (_, _) := ?cb ?c ?h in _] =>
          destruct (cb c h) as [? [? | ?]] eqn:?
      | |- context [Pg.release_result ?c ?h] =>
          lazymatch goal with
          | H : Pg.release_result c h = _ |- _ => fail
          | _ => destruct (Pg.release_result c h) as [[] | ?] eqn:?
          end
      end ]; cbn [app fst snd]).

Ltac run_transaction := unfold_transaction; split_transaction.

(** X14: a transaction that obtained a client hands it back whatever
    happens: the release is the last thing the transaction does, and it does
    it once (the callback left aside). When the pool gives no client, nothing
    is sent and the pool's error is thrown. *)
Theorem transaction_releases_client {R : Type}
    (callback : Pg.client -> Pg.M R) (h : list Pg.event) :
  (forall c : Pg.client,
     exists before : list Pg.event,
       (transaction (Return c) callback h).1 = before ++ [Pg.Released] /\
       ((forall h' : list Pg.event, Pg.Released ∉ (callback c h').1) ->
        Pg.Released ∉ before)) /\
  (forall error : string,
     transaction (Throw error) callback h = ([], Throw error)).
Proof.
  split; [| reflexivity].
  intros c. run_transaction;
    match goal with
    | |- exists _, ?x :: ?l ++ [Pg.Released] = _ /\ _ => exists (x :: l)
    | |- exists _, [?x; ?y; ?z; Pg.Released] = _ /\ _ => exists [x; y; z]
    | |- exists _, [?x; ?y; Pg.Released] = _ /\ _ => exists [x; y]
    end;
    (split; [reflexivity |]); intros Hno;
    try match goal with
        | H : callback _ ?h' = (_, _) |- _ =>
            specialize (Hno h'); rewrite H in Hno; simpl in Hno
        end;
    rewrite ?not_elem_of_cons, ?not_elem_of_app, ?not_elem_of_cons;
    repeat split; first [discriminate | assumption | apply not_elem_of_nil].
Qed.

Lemma transaction_releases_client_witness :
  exists before : list Pg.event,
    (transaction (Return healthy_client) insert_callback []).1
      = before ++ [Pg.Released] /\
    Pg.Released ∉ before.
Proof.
  destruct (proj1 (transaction_releases_client insert_callback []) healthy_client)
    as (before & Hlast & Honce).
  exists before. split; [exact Hlast |]. apply Honce.
  intros h'. unfold insert_callback, Pg.bind, Pg.query, Pg.ret. simpl.
  rewrite not_elem_of_cons. split; [discriminate | apply not_elem_of_nil].
Defined.

(** X15: a transaction returns normally exactly when BEGIN, the callback,
    COMMIT and the release all succeed; it then returns the callback's
    result, and what it did is BEGIN, the callback's own events, COMMIT and
    the release, in this order. *)
Theorem transaction_returns_iff_committed {R : Type}
    (c : Pg.client) (callback : Pg.client -> Pg.M R)
    (h emitted : list Pg.event) (result : R) :
  transaction (Return c) callback h = (emitted, Return result) <->
  exists evs : list Pg.event,
    Pg.query_result c h "BEGIN" = Return tt /\
    callback c (h ++ [Pg.Queried "BEGIN"]) = (evs, Return result) /\
    Pg.query_result c ((h ++ [Pg.Queried "BEGIN"]) ++ evs) "COMMIT" = Return tt /\
    Pg.release_result c (h ++ Pg.Queried "BEGIN" :: evs ++ [Pg.Queried "COMMIT"])
      = Return tt /\
    emitted = Pg.Queried "BEGIN" :: evs ++ [Pg.Queried "COMMIT"; Pg.Released].
Proof.
  split.
  - run_transaction; intros Hrun; try discriminate Hrun.
    injection Hrun as <- <-.
    eexists. repeat split; try eassumption.
    by rewrite <- app_assoc.
  - intros (evs & Hbegin & Hcb & Hcommit & Hrelease & ->).
    unfold_transaction.
    rewrite Hbegin, Hcb, Hcommit. cbn [app]. rewrite Hrelease.
    by rewrite <- app_assoc.
Qed.

(** X16: when a transaction that obtained a client throws, a ROLLBACK has
    been sent, unless everything up to and including COMMIT succeeded and it
    is the release of the client that threw. *)
Theorem transaction_failure_rolls_back {R : Type}
    (c : Pg.client) (callback : Pg.client -> Pg.M R)
    (h emitted : list Pg.event) (error : string) :
  transaction (Return c) callback h = (emitted, Throw error) ->
  Pg.Queried "ROLLBACK" ∈ emitted \/
  exists (evs : list Pg.event) (result : R),
    callback c (h ++ [Pg.Queried "BEGIN"]) = (evs, Return result) /\
    Pg.query_result c ((h ++ [Pg.Queried "BEGIN"]) ++ evs) "COMMIT" = Return tt /\
    Pg.release_result c (h ++ Pg.Queried "BEGIN" :: evs ++ [Pg.Queried "COMMIT"])
      = Throw error /\
    emitted = Pg.Queried "BEGIN" :: evs ++ [Pg.Queried "COMMIT"; Pg.Released].
Proof.
  run_transaction; intros Hrun; try discriminate Hrun;
    injection Hrun as <- <-;
    first
      [ right; eexists _, _; repeat split; try eassumption;
        by rewrite <- app_assoc
      | left;
        rewrite ?elem_of_cons, ?elem_of_app, ?elem_of_cons; tauto ].
Qed.

Lemma transaction_failure_rolls_back_witness :
  Pg.Queried "ROLLBACK" ∈
    [ Pg.Queried "BEGIN"; Pg.Queried "INSERT INTO game_matches VALUES ($1)";
      Pg.Queried "ROLLBACK"; Pg.Logged "❌ Transaction error:"; Pg.Released ] \/
  exists (evs : list Pg.event) (result : Z),
    failing_callback healthy_client ([] ++ [Pg.Queried "BEGIN"]) = (evs, Return result) /\
    Pg.query_result healthy_client (([] ++ [Pg.Queried "BEGIN"]) ++ evs) "COMMIT"
      = Return tt /\
    Pg.release_result healthy_client
      ([] ++ Pg.Queried "BEGIN" :: evs ++ [Pg.Queried "COMMIT"])
      = Throw "callback failed" /\
    [ Pg.Queried "BEGIN"; Pg.Queried "INSERT INTO game_matches VALUES ($1)";
      Pg.Queried "ROLLBACK"; Pg.Logged "❌ Transaction error:"; Pg.Released ]
      = Pg.Queried "BEGIN" :: evs ++ [Pg.Queried "COMMIT"; Pg.Released].
Proof.
  apply (transaction_failure_rolls_back healthy_client failing_callback []).
  reflexivity.
Defined.

(** X17: when the callback throws, the transaction sends ROLLBACK right
    after the callback's events and no COMMIT, and it throws. What it throws
    is the callback's error when the rollback and the release succeed; when
    the rollback is rejected, the rollback's error is thrown instead and the
    callback's error is not even logged. *)
Theorem failed_callback_is_rolled_back {R : Type}
    (c : Pg.client) (callback : Pg.client -> Pg.M R)
    (h evs : list Pg.event) (error : string) :
  Pg.query_result c h "BEGIN" = Return tt ->
  callback c (h ++ [Pg.Queried "BEGIN"]) = (evs, Throw error) ->
  exists (logged : list Pg.event) (thrown : string),
    transaction (Return c) callback h =
      (Pg.Queried "BEGIN" :: evs ++ Pg.Queried "ROLLBACK" :: logged ++ [Pg.Released],
       Throw thrown) /\
    ((forall h' : list Pg.event, Pg.release_result c h' = Return tt) ->
     (forall h' : list Pg.event, Pg.query_result c h' "ROLLBACK" = Return tt) ->
     logged = [Pg.Logged "❌ Transaction error:"] /\ thrown = error) /\
    (forall rollback_error : string,
       (forall h' : list Pg.event, Pg.release_result c h' = Return tt) ->
       (forall h' : list Pg.event,
          Pg.query_result c h' "ROLLBACK" = Throw rollback_error) ->
       logged = [] /\ thrown = rollback_error).
Proof.
  intros Hbegin Hcb.
  unfold_transaction. rewrite Hbegin, Hcb. cbn [app]. split_transaction;
    match goal with
    | |- exists _ _, (_ :: (_ ++ [_; ?l]) ++ _, Throw ?e) = _ /\ _ =>
        exists [l], e
    | |- exists _ _, (_ :: (_ ++ [_]) ++ _, Throw ?e) = _ /\ _ =>
        exists [], e
    end;
    (split; [by rewrite <- app_assoc |]);
    (split; [intros Hrel Hroll | intros rollback_error Hrel Hroll]);
    repeat match goal with
           | H : Pg.release_result c _ = _ |- _ => rewrite Hrel in H
           | H : Pg.query_result c _ "ROLLBACK" = _ |- _ => rewrite Hroll in H
           end;
    split; congruence.
Qed.

Lemma failed_callback_is_rolled_back_witness :
  exists (logged : list Pg.event) (thrown : string),
    transaction (Return healthy_client) failing_callback [] =
      (Pg.Queried "BEGIN"
         :: [Pg.Queried "INSERT INTO game_matches VALUES ($1)"]
            ++ Pg.Queried "ROLLBACK" :: logged ++ [Pg.Released],
       Throw thrown) /\
    logged = [Pg.Logged "❌ Transaction error:"] /\ thrown = "callback failed".
Proof.
  destruct (failed_callback_is_rolled_back healthy_client failing_callback []
              [Pg.Queried "INSERT INTO game_matches VALUES ($1)"] "callback failed"
              eq_refl eq_refl)
    as (logged & thrown & Hrun & Hhealthy & _).
  exists logged, thrown. split; [exact Hrun |].
  apply Hhealthy; reflexivity.
Defined.

(** ** The exported database object *)

(** X18: the exported [database] object answers every property read (other
    than [__proto__]) exactly as [GameQueries.prototype] does. It has the
    game queries and the methods of [Database], but replacing its prototype
    has cut it off from [UserQueries]: [createOrGetUser], [getUserStats] and
    [updateLastPlayed] are [undefined] on it. *)
Theorem database_lacks_user_queries :
  (forall key : string,
     key <> "__proto__" ->
     Obj.get database.1 database.2 key =
     Obj.get database.1 GameQueries_prototype key) /\
  Obj.get database.1 database.2 "createOrGetUser" = Obj.VUndefined /\
  Obj.get database.1 database.2 "getUserStats" = Obj.VUndefined /\
  Obj.get database.1 database.2 "updateLastPlayed" = Obj.VUndefined /\
  Obj.get database.1 UserQueries_prototype "getUserStats"
    = Obj.Method "UserQueries" "getUserStats" /\
  Obj.get database.1 database.2 "getLeaderboard"
    = Obj.Method "GameQueries" "getLeaderboard" /\
  Obj.get database.1 database.2 "transaction"
    = Obj.Method "Database" "transaction" /\
  Obj.get database.1 database.2 "constructor"
    = Obj.Method "GameQueries" "constructor".
Proof.
  split; [| repeat split; vm_compute; reflexivity].
  intros key _.
  let heap := eval vm_compute in database in change database with heap.
  cbv -[String.eqb].
  repeat match goal with
         | |- context [String.eqb key ?name] =>
             destruct (String.eqb_spec key name); [subst key; reflexivity |]
         end.
  reflexivity.
Qed.

Lemma database_lacks_user_queries_witness :
  Obj.get database.1 database.2 "recordMatch" =
  Obj.get database.1 GameQueries_prototype "recordMatch".
Proof.
  apply (proj1 database_lacks_user_queries "recordMatch"). discriminate.
Defined.

(** ** The rank rows and the rating, as the code has them *)

(** X19: what the three rank rows do on every row: top_ten is unlocked when
    the rank is a number at most 10 and also when it is [null]; podium when
    it is a number at most 3 and also when it is [null]; champion only when
    it is the number 1. A rank that is [undefined] unlocks none. *)
Theorem rank_rows_as_coded (u : string) (s : UserStats) :
  ("top_ten" ∈ ids (getUserAchievements u s) <->
     rank s = Null \/ present (rank s) (fun r => r <= 10)) /\
  ("podium" ∈ ids (getUserAchievements u s) <->
     rank s = Null \/ present (rank s) (fun r => r <= 3)) /\
  ("champion" ∈ ids (getUserAchievements u s) <-> rank s = Num 1).
Proof.
  rewrite in_ids_top_ten, in_ids_podium, in_ids_champion, strict_eq_true.
  destruct (rank s) as [| |r].
  - rewrite !less_or_equal_Undefined. simpl. intuition discriminate.
  - rewrite !less_or_equal_Null by lia. simpl. intuition.
  - rewrite !less_or_equal_Num. simpl. intuition discriminate.
Qed.

(** X20: the rating of every score under every difficulty string: Keep
    Trying when the string names a member of [Object.prototype], and
    otherwise the rating of the table row of that difficulty, the easy row
    standing in for every other string. *)
Theorem getGamePerformance_on_every_string (score : Z) (difficulty : string) :
  getGamePerformance score difficulty =
    Return (render (if bool_decide (difficulty ∈ Object_prototype)
                    then KeepTrying
                    else spec_ratePerformance score difficulty)).
Proof.
  case_bool_decide as Hd.
  - by apply getGamePerformance_on_prototype.
  - by apply getGamePerformance_off_prototype.
Qed.
